(** * geo-data-viewer: the extension host glue and the webview script

    A shallow embedding of [src/extension.ts] (the activation entry point,
    the [view.map] command and the three workspace listeners) and of the
    message handling of [web/scripts/map.view.js].

    The handlers are straight-line programs over the editor API.  They are
    embedded as terms of a free monad over the calls they make
    ([viewManager.find], [new MapView], ...), and run against an arbitrary
    host: the view registry, the MapView class, the template manager and
    the logger are imported by [extension.ts] from modules of their
    own, so every theorem about a handler quantifies over what those calls
    answer and do.  The browser script is embedded as a state and exception
    monad over the page's variables. *)

From stdpp Require Import base option list strings gmap fin_maps.
From Stdlib Require Import ZArith Ascii String Lia.

Local Open Scope string_scope.

(** ** Strings: [String.prototype.endsWith] and [path.basename] *)

Module Js.

(** [s.endsWith(search)]: the last [length search] characters of [s] are
    [search]. *)
Definition endsWith (s search : string) : bool :=
  let n := String.length s in
  let m := String.length search in
  if (m <=? n)%nat then String.eqb (substring (n - m) m s) search else false.

Definition is_slash (c : ascii) : bool := Ascii.eqb c "/"%char.

Fixpoint drop_slashes (cs : list ascii) : list ascii :=
  match cs with
  | c :: cs' => if is_slash c then drop_slashes cs' else cs
  | [] => []
  end.

Fixpoint until_slash (cs : list ascii) : list ascii :=
  match cs with
  | c :: cs' => if is_slash c then [] else c :: until_slash cs'
  | [] => []
  end.

(** Node's [path.basename(p)] on a POSIX host, without the optional
    extension argument: scanning from the end, trailing separators are
    skipped and the characters up to the next separator are the result. *)
Definition basename (p : string) : string :=
  string_of_list_ascii
    (rev (until_slash (drop_slashes (rev (list_ascii_of_string p))))).

End Js.

(** ** The editor's data: URIs, documents, editors *)

Record Uri : Type := mkUri {
  scheme : string;
  authority : string;
  path : string;
  query : string;
  fragment : string
}.

Definition is_letter (c : ascii) : bool :=
  let n := nat_of_ascii c in
  ((65 <=? n) && (n <=? 90) || (97 <=? n) && (n <=? 122))%nat.

Definition to_lower (c : ascii) : ascii :=
  let n := nat_of_ascii c in
  if ((65 <=? n) && (n <=? 90))%nat then ascii_of_nat (n + 32) else c.

(** [uri.fsPath] as the editor computes it on a POSIX host: a UNC form for
    [file] URIs with an authority, a lower-cased drive letter for
    [/c:/...] paths, and the path itself otherwise. *)
Definition fsPath (u : Uri) : string :=
  if negb (String.eqb (authority u) "")
     && (1 <? String.length (path u))%nat
     && String.eqb (scheme u) "file"
  then "//" +:+ authority u +:+ path u
  else
    match path u with
    | String c0 (String c1 (String c2 rest)) =>
        if Ascii.eqb c0 "/"%char && is_letter c1 && Ascii.eqb c2 ":"%char
        then String (to_lower c1) (String c2 rest)
        else path u
    | _ => path u
    end.

(** [uri.with({scheme: s})]. *)
Definition Uri_with_scheme (u : Uri) (s : string) : Uri :=
  {| scheme := s; authority := authority u; path := path u;
     query := query u; fragment := fragment u |}.

(** The path as [uri.toString()] writes it: the drive letter of [/C:/...]
    and of [C:/...] in lower case. *)
Definition Uri_toString_path (p : string) : string :=
  match p with
  | String c0 (String c1 (String c2 rest)) =>
      if Ascii.eqb c0 "/"%char && Ascii.eqb c2 ":"%char
      then String c0 (String (to_lower c1) (String c2 rest))
      else if Ascii.eqb c1 ":"%char
      then String (to_lower c0) (String c1 (String c2 rest))
      else p
  | String c0 (String c1 rest) =>
      if Ascii.eqb c1 ":"%char then String (to_lower c0) (String c1 rest)
      else p
  | _ => p
  end.

(** [uri.toString(true)]: the scheme and a colon, two slashes when there is
    an authority or the scheme is [file], the authority, the path, and the
    query and fragment when they are not empty.  The percent-encoding of
    [#] and [?] and the case folding of the authority are left out. *)
Definition Uri_toString (u : Uri) : string :=
  (if String.eqb (scheme u) "" then "" else scheme u +:+ ":")
  +:+ (if negb (String.eqb (authority u) "") || String.eqb (scheme u) "file"
       then "//" else "")
  +:+ authority u +:+ Uri_toString_path (path u)
  +:+ (if String.eqb (query u) "" then "" else "?" +:+ query u)
  +:+ (if String.eqb (fragment u) "" then "" else "#" +:+ fragment u).

#[global] Instance Uri_eq_dec : EqDecision Uri.
Proof. solve_decision. Defined.

(** A [TextDocument]: its URI and the text [getText()] returns. *)
Record TextDocument : Type := mkTextDocument {
  uri : Uri;
  text : string
}.

(** A [TextDocumentContentChangeEvent]: the replaced range and the new text. *)
Record ContentChange : Type := mkContentChange {
  rangeOffset : nat;
  rangeLength : nat;
  changeText : string
}.

Record TextDocumentChangeEvent : Type := mkTextDocumentChangeEvent {
  document : TextDocument;
  contentChanges : list ContentChange
}.

(** A [ConfigurationChangeEvent]: the sections that changed. *)
Record ConfigurationChangeEvent : Type := mkConfigurationChangeEvent {
  affected : list string
}.

(** [ViewColumn] is a numeric enum: [Active = -1], [Beside = -2],
    [One = 1] ... [Nine = 9]. *)
Definition ViewColumn : Type := Z.

Module ViewColumn.
Definition Active : ViewColumn := (-1)%Z.
Definition Beside : ViewColumn := (-2)%Z.
Definition One : ViewColumn := 1%Z.
Definition Two : ViewColumn := 2%Z.
Definition Three : ViewColumn := 3%Z.
End ViewColumn.

(** A [TextEditor]: its document and its column, [undefined] for an editor
    that is not one of the main editors. *)
Record TextEditor : Type := mkTextEditor {
  editorDocument : TextDocument;
  viewColumn : option ViewColumn
}.

(** The part of [vscode.window] the handlers read. *)
Record Window : Type := mkWindow {
  activeTextEditor : option TextEditor
}.

(** [isGeoDataFile(document)], extension.ts line 129. *)
Definition isGeoDataFile (document : TextDocument) : bool :=
  Js.endsWith (Js.basename (fsPath (uri document))) ".geojson".

(** ** Programs over an interface

    An interface lists the calls a program may make and the type of the
    answer to each.  A program is a tree: it returns, or makes a call and
    continues with the answer. *)

Record Interface : Type := mkInterface {
  op : Type;
  answer : op → Type
}.

Inductive Prog (I : Interface) (R : Type) : Type :=
| Ret (r : R)
| Call (c : op I) (k : answer I c → Prog I R).

Arguments Ret {I R} r.
Arguments Call {I R} c k.

Fixpoint bind {I : Interface} {A B : Type}
    (f : A → Prog I B) (p : Prog I A) : Prog I B :=
  match p with
  | Ret a => f a
  | Call c k => Call c (λ x, bind f (k x))
  end.

#[global] Instance Prog_ret {I} : MRet (Prog I) := λ _ r, Ret r.
#[global] Instance Prog_bind {I} : MBind (Prog I) := λ _ _ f p, bind f p.

Definition call {I : Interface} (c : op I) : Prog I (answer I c) := Call c Ret.

(** A host gives every call a meaning on its own state. *)
Record Host (I : Interface) : Type := mkHost {
  world : Type;
  perform : ∀ c : op I, world → answer I c * world
}.

Arguments world {I} _.
Arguments perform {I} _ c w.

(** The outcome of a run: the result, the final state of the host and the
    calls made, in order. *)
Record Outcome (W R : Type) (C : Type) : Type := mkOutcome {
  result : R;
  final : W;
  trace : list C
}.

Arguments mkOutcome {W R C} _ _ _.
Arguments result {W R C} _.
Arguments final {W R C} _.
Arguments trace {W R C} _.

Fixpoint run {I : Interface} {R : Type} (H : Host I) (p : Prog I R)
    (w : world H) : Outcome (world H) R (op I) :=
  match p with
  | Ret r => mkOutcome r w []
  | Call c k =>
      let '(a, w1) := perform H c w in
      let o := run H (k a) w1 in
      mkOutcome (result o) (final o) (c :: trace o)
  end.

(** ** The calls of the extension's handlers *)

(** An html template, as [templateManager.getTemplate] returns it. *)
Definition Template : Type := string.

(** The handle of a webview panel. *)
Record Webview : Type := mkWebview { panelId : nat }.

(** A [MapView] object, by the arguments of its constructor and the panel
    its [webview] property gives. *)
Record MapView : Type := mkMapView {
  mapViewType : string;
  mapExtensionPath : string;
  resource : Uri;
  column : ViewColumn;
  template : option Template;
  webview : Webview
}.

#[global] Instance Webview_eq_dec : EqDecision Webview.
Proof. solve_decision. Defined.

#[global] Instance MapView_eq_dec : EqDecision MapView.
Proof. solve_decision. Defined.

Inductive HostCall : Type :=
| ShowInformationMessage (message : string)
| NewMapView (viewType extensionPath : string) (resource : Uri)
    (viewColumn : ViewColumn) (viewTemplate : option Template)
| ViewManagerAdd (view : MapView)
| ViewManagerFind (uri : Uri)
| ViewManagerConfigure
| MapViewRefresh (view : MapView).

Definition HostAnswer (c : HostCall) : Type :=
  match c with
  | NewMapView _ _ _ _ _ => MapView
  | ViewManagerFind _ => option MapView
  | _ => unit
  end.

Definition HostI : Interface := mkInterface HostCall HostAnswer.

Definition is_refresh (c : HostCall) : bool :=
  match c with MapViewRefresh _ => true | _ => false end.

Definition is_construct (c : HostCall) : bool :=
  match c with NewMapView _ _ _ _ _ => true | _ => false end.

Definition is_add (c : HostCall) : bool :=
  match c with ViewManagerAdd _ => true | _ => false end.

Definition is_find (c : HostCall) : bool :=
  match c with ViewManagerFind _ => true | _ => false end.

Definition is_configure (c : HostCall) : bool :=
  match c with ViewManagerConfigure => true | _ => false end.

(** The calls that go to the view registry. *)
Definition is_registry (c : HostCall) : bool :=
  is_add c || is_find c || is_configure c.

(** The calls, typed as the handlers use them. *)
Module viewManager.
Definition add (view : MapView) : Prog HostI unit :=
  call (I := HostI) (ViewManagerAdd view).
Definition find (uri : Uri) : Prog HostI (option MapView) :=
  call (I := HostI) (ViewManagerFind uri).
Definition configure : Prog HostI unit :=
  call (I := HostI) ViewManagerConfigure.
End viewManager.

Definition new_MapView (viewType extensionPath : string) (resource : Uri)
    (viewColumn : ViewColumn) (viewTemplate : option Template)
    : Prog HostI MapView :=
  call (I := HostI)
    (NewMapView viewType extensionPath resource viewColumn viewTemplate).

Definition refresh (view : MapView) : Prog HostI unit :=
  call (I := HostI) (MapViewRefresh view).

Definition showInformationMessage (message : string) : Prog HostI unit :=
  call (I := HostI) (ShowInformationMessage message).

(** ** extension.ts *)

(** The argument a command is invoked with: a [Uri], or something that is
    not an instance of [Uri]. *)
Inductive CommandArg : Type :=
| ArgUri (u : Uri)
| ArgUndefined
| ArgString (s : string).

(** [getViewColumn()], line 116.  A number is truthy when it is not zero. *)
Definition getViewColumn (window : Window) : ViewColumn :=
  let viewColumn0 := ViewColumn.One in
  match activeTextEditor window with
  | Some activeEditor =>
      match viewColumn activeEditor with
      | Some c => if negb (c =? 0)%Z then (c + 1)%Z else viewColumn0
      | None => viewColumn0
      end
  | None => viewColumn0
  end.

(** The callback [createViewMapCommand] registers, lines 94 to 109.  It
    returns [mapView.webview], or [undefined] after the early [return]. *)
Definition viewMapCallback (viewType extensionPath : string)
    (viewTemplate : option Template) (window : Window) (arg : CommandArg)
    : Prog HostI (option Webview) :=
  let viewColumn := getViewColumn window in
  let construct (resource : Uri) : Prog HostI (option Webview) :=
    mapView ← new_MapView viewType extensionPath resource viewColumn viewTemplate;
    _ ← viewManager.add mapView;
    mret (Some (webview mapView)) in
  match arg with
  | ArgUri resource => construct resource
  | _ =>
      match activeTextEditor window with
      | Some editor => construct (uri (editorDocument editor))
      | None =>
          _ ← showInformationMessage "Open a geo data file to view map.";
          mret None
      end
  end.

(** The [onDidSaveTextDocument] listener, lines 49 to 57. *)
Definition onDidSaveTextDocument (document : TextDocument) : Prog HostI unit :=
  if isGeoDataFile document then
    let mapUri := Uri_with_scheme (uri document) "map" in
    mapView ← viewManager.find mapUri;
    match mapView with
    | Some mapView => refresh mapView
    | None => mret tt
    end
  else mret tt.

(** The [onDidChangeTextDocument] listener, lines 60 to 69: the body of its
    inner [if] holds two comment lines only. *)
Definition onDidChangeTextDocument (changeEvent : TextDocumentChangeEvent)
    : Prog HostI unit :=
  if isGeoDataFile (document changeEvent) then
    let mapUri := Uri_with_scheme (uri (document changeEvent)) "map" in
    mapView ← viewManager.find mapUri;
    if bool_decide (is_Some mapView)
       && (0 <? List.length (contentChanges changeEvent))%nat
    then mret tt
    else mret tt
  else mret tt.

(** The [onDidChangeConfiguration] listener, lines 72 to 74: it takes no
    parameter, so the event is dropped. *)
Definition onDidChangeConfiguration (_ : ConfigurationChangeEvent)
    : Prog HostI unit :=
  viewManager.configure.

(** [deactivate()], line 82: nothing to clean up. *)
Definition deactivate : Prog HostI unit := mret tt.

(** *** Activation

    [activate] talks to the extension context, the template manager, the
    window, the command registry, the workspace and the logger; what it
    hands over to them are the callbacks above. *)

Record ExtensionContext : Type := mkExtensionContext {
  extensionPath : string
}.

Record TemplateManager : Type := mkTemplateManager { templateFolder : string }.

Record MapViewSerializer : Type := mkMapViewSerializer {
  serializerViewType : string;
  serializerExtensionPath : string;
  serializerTemplate : option Template
}.

Record Disposable : Type := mkDisposable { disposableId : nat }.

Definition CommandCallback : Type := Window → CommandArg → Prog HostI (option Webview).

Inductive ActivateCall : Type :=
| AsAbsolutePath (relativePath : string)
| NewTemplateManager (templateFolder : string)
| GetTemplate (manager : TemplateManager) (name : string)
| NewMapViewSerializer (viewType extensionPath : string)
    (viewTemplate : option Template)
| RegisterWebviewPanelSerializer (viewType : string)
    (serializer : MapViewSerializer)
| RegisterCommand (command : string) (callback : CommandCallback)
| SubscriptionsPush (item : Disposable)
| OnDidSaveTextDocument (listener : TextDocument → Prog HostI unit)
| OnDidChangeTextDocument (listener : TextDocumentChangeEvent → Prog HostI unit)
| OnDidChangeConfiguration
    (listener : ConfigurationChangeEvent → Prog HostI unit)
| LoggerInfo (message : string) (param : string).

Definition ActivateAnswer (c : ActivateCall) : Type :=
  match c with
  | AsAbsolutePath _ => string
  | NewTemplateManager _ => TemplateManager
  | GetTemplate _ _ => option Template
  | NewMapViewSerializer _ _ _ => MapViewSerializer
  | RegisterCommand _ _ => Disposable
  | _ => unit
  end.

Definition ActivateI : Interface := mkInterface ActivateCall ActivateAnswer.

Definition act (c : ActivateCall) : Prog ActivateI (ActivateAnswer c) :=
  call (I := ActivateI) c.

(** [createViewMapCommand(viewType, extensionPath, viewTemplate)], line 92. *)
Definition createViewMapCommand (viewType extensionPath : string)
    (viewTemplate : option Template) : Prog ActivateI Disposable :=
  act (RegisterCommand viewType
         (viewMapCallback viewType extensionPath viewTemplate)).

(** [activate(context)], line 31. *)
Definition activate (context : ExtensionContext) : Prog ActivateI unit :=
  let extensionPath := extensionPath context in
  folder ← act (AsAbsolutePath "templates");
  templateManager ← act (NewTemplateManager folder);
  mapViewTemplate ← act (GetTemplate templateManager "map.view.html");
  serializer ← act (NewMapViewSerializer "map.view" extensionPath mapViewTemplate);
  _ ← act (RegisterWebviewPanelSerializer "map.view" serializer);
  mapWebview ← createViewMapCommand "view.map" extensionPath mapViewTemplate;
  _ ← act (SubscriptionsPush mapWebview);
  _ ← act (OnDidSaveTextDocument onDidSaveTextDocument);
  _ ← act (OnDidChangeTextDocument onDidChangeTextDocument);
  _ ← act (OnDidChangeConfiguration onDidChangeConfiguration);
  act (LoggerInfo "activate(): activated! extPath:" extensionPath).

(** What a trace of [activate] registered, by kind. *)
Fixpoint commands_of (t : list ActivateCall) : list (string * CommandCallback) :=
  match t with
  | RegisterCommand name callback :: t' => (name, callback) :: commands_of t'
  | _ :: t' => commands_of t'
  | [] => []
  end.

Fixpoint save_listeners_of (t : list ActivateCall)
    : list (TextDocument → Prog HostI unit) :=
  match t with
  | OnDidSaveTextDocument l :: t' => l :: save_listeners_of t'
  | _ :: t' => save_listeners_of t'
  | [] => []
  end.

Fixpoint change_listeners_of (t : list ActivateCall)
    : list (TextDocumentChangeEvent → Prog HostI unit) :=
  match t with
  | OnDidChangeTextDocument l :: t' => l :: change_listeners_of t'
  | _ :: t' => change_listeners_of t'
  | [] => []
  end.

Fixpoint configuration_listeners_of (t : list ActivateCall)
    : list (ConfigurationChangeEvent → Prog HostI unit) :=
  match t with
  | OnDidChangeConfiguration l :: t' => l :: configuration_listeners_of t'
  | _ :: t' => configuration_listeners_of t'
  | [] => []
  end.

(** The view columns the [MapView] constructor was called with. *)
Fixpoint constructed_columns (t : list HostCall) : list ViewColumn :=
  match t with
  | NewMapView _ _ _ viewColumn _ :: t' => viewColumn :: constructed_columns t'
  | _ :: t' => constructed_columns t'
  | [] => []
  end.

(** The view column of the created panel in the words of the
    specification: the active editor's column plus one when there is an
    active editor with a defined column, [ViewColumn.One] otherwise. *)
Definition specified_view_column (window : Window) : ViewColumn :=
  match activeTextEditor window with
  | Some editor =>
      match viewColumn editor with
      | Some c => (c + 1)%Z
      | None => ViewColumn.One
      end
  | None => ViewColumn.One
  end.

(** ** The postMessage boundary *)

(** [event.data] of a message the webview receives: the properties the
    script reads. *)
Module data.
Record t : Type := mk {
  command : string;
  message : string;
  uri : string;
  fileName : string;
  config : string
}.
End data.

(** A message the webview posts to the extension host:
    [{command}] or [{command, viewName, uri}]. *)
Module posted.
Record t : Type := mk {
  command : string;
  viewName : option string;
  uri : option string
}.
Definition refresh : t := mk "refresh" None None.
End posted.

(** ** A reference host for the handlers *)

Module Reference.

(** The state of the reference host: the registry, the number of panels
    opened, the files on disk by path, the messages posted to panels, the
    information messages shown, and the number of configuration passes. *)
Record World : Type := mkWorld {
  views : gmap string MapView;
  panels : nat;
  files : gmap string string;
  inbox : list (Webview * data.t);
  notices : list string;
  configured : nat
}.

Definition empty (files : gmap string string) : World :=
  mkWorld ∅ 0 files [] [] 0.

(** Modelled from the spec: the key of a view in the registry of
    view.manager.ts, which extension.ts imports.  The registry "maps URIs
    to open panel handles"; a view is filed under its resource's URI with
    the scheme [map], the URI the listeners look up. *)
Definition key (view : MapView) : string :=
  Uri_toString (Uri_with_scheme (resource view) "map").

(** Modelled from the spec: [viewManager.add] of view.manager.ts, which
    files the view under its key. *)
Definition add (view : MapView) (w : World) : World :=
  mkWorld (<[key view := view]> (views w)) (panels w) (files w) (inbox w)
    (notices w) (configured w).

(** Modelled from the spec: [viewManager.find] of view.manager.ts, the view
    filed under the URI, if any. *)
Definition find (uri : Uri) (w : World) : option MapView :=
  views w !! Uri_toString uri.

(** Modelled from the spec: [viewManager.configure] of view.manager.ts.
    The registry has "no eviction": configuring keeps every view, and the
    pass is counted. *)
Definition configure (w : World) : World :=
  mkWorld (views w) (panels w) (files w) (inbox w) (notices w)
    (S (configured w)).

(** Modelled from the spec: the constructor of MapView (map.view.ts),
    which opens the webview panel of the view. *)
Definition construct (viewType extensionPath : string) (resource : Uri)
    (viewColumn : ViewColumn) (viewTemplate : option Template) (w : World)
    : MapView * World :=
  (mkMapView viewType extensionPath resource viewColumn viewTemplate
     (mkWebview (panels w)),
   mkWorld (views w) (S (panels w)) (files w) (inbox w) (notices w)
     (configured w)).

(** Modelled from the spec: the message [MapView.refresh] (map.view.ts)
    sends, "a refresh message containing the file's path and contents". *)
Definition refresh_message (view : MapView) (w : World) : data.t :=
  let file := fsPath (resource view) in
  data.mk "refresh" "" file (Js.basename file) (default "" (files w !! file)).

(** Modelled from the spec: [MapView.refresh] (map.view.ts), which posts
    the refresh message to the panel of the view. *)
Definition post_refresh (view : MapView) (w : World) : World :=
  mkWorld (views w) (panels w) (files w)
    (inbox w ++ [(webview view, refresh_message view w)])
    (notices w) (configured w).

(** [window.showInformationMessage] of the editor: the message is shown. *)
Definition notify (message : string) (w : World) : World :=
  mkWorld (views w) (panels w) (files w) (inbox w) (notices w ++ [message])
    (configured w).

Definition perform (c : HostCall) : World → HostAnswer c * World :=
  match c with
  | ShowInformationMessage message => λ w, (tt, notify message w)
  | NewMapView viewType extensionPath resource viewColumn viewTemplate =>
      construct viewType extensionPath resource viewColumn viewTemplate
  | ViewManagerAdd view => λ w, (tt, add view w)
  | ViewManagerFind uri => λ w, (find uri w, w)
  | ViewManagerConfigure => λ w, (tt, configure w)
  | MapViewRefresh view => λ w, (tt, post_refresh view w)
  end.

Definition host : Host HostI := mkHost HostI World perform.

End Reference.

(** ** web/scripts/map.view.js: the page's listeners *)

Module MapViewJs.

(** A variable or property that holds an object, [null] or [undefined]. *)
Inductive Ref (A : Type) : Type :=
| undefined
| null
| object (a : A).

Arguments undefined {A}.
Arguments null {A}.
Arguments object {A} a.

Inductive Error : Type :=
| TypeError (message : string)
| ReferenceError (message : string)
| PlainError (message : string).

(** [error.message] *)
Definition error_message (error : Error) : string :=
  match error with
  | TypeError m | ReferenceError m | PlainError m => m
  end.

(** An element of the page, by its id. *)
Definition Element : Type := string.

(** The object [acquireVsCodeApi()] returns. *)
Inductive VsCodeApi : Type := vsCodeApi.

(** The global [acquireVsCodeApi]: not defined outside a webview of the
    editor, and callable once inside one. *)
Inductive Acquire : Type := NotDefined | Available | Acquired.

(** The variables of the script, line 88. *)
Record Vars : Type := mkVars {
  vscode : Ref VsCodeApi;
  title : Ref Element;
  message : Ref Element;
  mapElement : Ref Element;
  mapConfig : Ref string;
  saveFileTypeSelector : Ref Element;
  dataUrlInput : Ref Element;
  dataUrl : Ref string;
  dataFileName : Ref string
}.

(** The browser around the script: the text of the elements of the
    document by id, the state of [acquireVsCodeApi], the state
    [vscode.setState] keeps (the [uri] of the object it was given), the
    messages posted to the extension host, and the error console. *)
Record Browser : Type := mkBrowser {
  elements : gmap string string;
  acquire : Acquire;
  state : option string;
  outbox : list posted.t;
  console : list string
}.

Record Page : Type := mkPage {
  vars : Vars;
  browser : Browser
}.

Definition initial_vars : Vars :=
  mkVars undefined undefined undefined undefined undefined undefined
    undefined undefined undefined.

(** A script step: it returns or throws, and either way leaves a page. *)
Definition Script (A : Type) : Type := Page → (Error + A) * Page.

Definition ret {A} (a : A) : Script A := λ p, (inr a, p).

Definition bind {A B} (f : A → Script B) (m : Script A) : Script B :=
  λ p, match m p with
       | (inr a, p') => f a p'
       | (inl e, p') => (inl e, p')
       end.

Definition throw {A} (e : Error) : Script A := λ p, (inl e, p).

(** [try { body } catch (error) { handler }] *)
Definition try_catch {A} (body : Script A) (handler : Error → Script A)
    : Script A :=
  λ p, match body p with
       | (inl e, p') => handler e p'
       | (inr a, p') => (inr a, p')
       end.

#[global] Instance Script_ret : MRet Script := @ret.
#[global] Instance Script_bind : MBind Script := @bind.

Definition get_vars : Script Vars := λ p, (inr (vars p), p).
Definition set_vars (f : Vars → Vars) : Script unit :=
  λ p, (inr tt, mkPage (f (vars p)) (browser p)).
Definition get_browser : Script Browser := λ p, (inr (browser p), p).
Definition set_browser (f : Browser → Browser) : Script unit :=
  λ p, (inr tt, mkPage (vars p) (f (browser p))).

(** Assignments to the script's variables. *)
Definition assign_vscode (x : Ref VsCodeApi) (v : Vars) : Vars :=
  mkVars x (title v) (message v) (mapElement v) (mapConfig v)
    (saveFileTypeSelector v) (dataUrlInput v) (dataUrl v) (dataFileName v).
Definition assign_title (x : Ref Element) (v : Vars) : Vars :=
  mkVars (vscode v) x (message v) (mapElement v) (mapConfig v)
    (saveFileTypeSelector v) (dataUrlInput v) (dataUrl v) (dataFileName v).
Definition assign_message (x : Ref Element) (v : Vars) : Vars :=
  mkVars (vscode v) (title v) x (mapElement v) (mapConfig v)
    (saveFileTypeSelector v) (dataUrlInput v) (dataUrl v) (dataFileName v).
Definition assign_map (x : Ref Element) (v : Vars) : Vars :=
  mkVars (vscode v) (title v) (message v) x (mapConfig v)
    (saveFileTypeSelector v) (dataUrlInput v) (dataUrl v) (dataFileName v).
Definition assign_mapConfig (x : Ref string) (v : Vars) : Vars :=
  mkVars (vscode v) (title v) (message v) (mapElement v) x
    (saveFileTypeSelector v) (dataUrlInput v) (dataUrl v) (dataFileName v).
Definition assign_saveFileTypeSelector (x : Ref Element) (v : Vars) : Vars :=
  mkVars (vscode v) (title v) (message v) (mapElement v) (mapConfig v)
    x (dataUrlInput v) (dataUrl v) (dataFileName v).
Definition assign_dataUrlInput (x : Ref Element) (v : Vars) : Vars :=
  mkVars (vscode v) (title v) (message v) (mapElement v) (mapConfig v)
    (saveFileTypeSelector v) x (dataUrl v) (dataFileName v).
Definition assign_dataUrl (x : Ref string) (v : Vars) : Vars :=
  mkVars (vscode v) (title v) (message v) (mapElement v) (mapConfig v)
    (saveFileTypeSelector v) (dataUrlInput v) x (dataFileName v).
Definition assign_dataFileName (x : Ref string) (v : Vars) : Vars :=
  mkVars (vscode v) (title v) (message v) (mapElement v) (mapConfig v)
    (saveFileTypeSelector v) (dataUrlInput v) (dataUrl v) x.

(** Reading property [name] of [r], or calling its method [name].  The
    text of the [TypeError] is the engine's own (here as V8 words it since
    version 9.3); no theorem depends on it. *)
Definition member {A} (r : Ref A) (name : string) : Script A :=
  match r with
  | object a => ret a
  | null =>
      throw (TypeError ("Cannot read properties of null (reading '"
                        +:+ name +:+ "')"))
  | undefined =>
      throw (TypeError ("Cannot read properties of undefined (reading '"
                        +:+ name +:+ "')"))
  end.

(** Writing property [name] of [r]; the text of the error as for
    [member]. *)
Definition member_set {A} (r : Ref A) (name : string) : Script A :=
  match r with
  | object a => ret a
  | null =>
      throw (TypeError ("Cannot set properties of null (setting '"
                        +:+ name +:+ "')"))
  | undefined =>
      throw (TypeError ("Cannot set properties of undefined (setting '"
                        +:+ name +:+ "')"))
  end.

(** [document.getElementById(id)] *)
Definition getElementById (id : string) : Script (Ref Element) :=
  b ← get_browser;
  ret (if decide (is_Some (elements b !! id)) then object id else null).

(** [element.innerText = text] *)
Definition set_innerText (r : Ref Element) (text : string) : Script unit :=
  id ← member_set r "innerText";
  set_browser (λ b, mkBrowser (<[id := text]> (elements b)) (acquire b)
                      (state b) (outbox b) (console b)).

(** [acquireVsCodeApi()] *)
Definition acquireVsCodeApi : Script VsCodeApi :=
  b ← get_browser;
  match acquire b with
  | NotDefined => throw (ReferenceError "acquireVsCodeApi is not defined")
  | Acquired =>
      throw (PlainError "An instance of the VS Code API has already been acquired")
  | Available =>
      _ ← set_browser (λ b, mkBrowser (elements b) Acquired (state b)
                              (outbox b) (console b));
      ret vsCodeApi
  end.

(** [vscode.postMessage(m)] *)
Definition postMessage (m : posted.t) : Script unit :=
  v ← get_vars;
  _ ← member (vscode v) "postMessage";
  set_browser (λ b, mkBrowser (elements b) (acquire b) (state b)
                      (outbox b ++ [m]) (console b)).

(** [vscode.setState({uri: uri})] *)
Definition setState (uri : string) : Script unit :=
  v ← get_vars;
  _ ← member (vscode v) "setState";
  set_browser (λ b, mkBrowser (elements b) (acquire b) (Some uri)
                      (outbox b) (console b)).

(** [console.error(label, text)] *)
Definition console_error (label text : string) : Script unit :=
  set_browser (λ b, mkBrowser (elements b) (acquire b) (state b) (outbox b)
                      (console b ++ [label +:+ " " +:+ text])).

(** [showMessage(text)], line 182. *)
Definition showMessage (text : string) : Script unit :=
  v ← get_vars;
  set_innerText (message v) text.

(** [view(mapConfig)], line 131: the [try] block is empty. *)
Definition view (mapConfig : Ref string) : Script unit :=
  _ ← showMessage "";
  try_catch (ret tt)
    (λ error,
       _ ← console_error "map.view:" (error_message error);
       showMessage (error_message error)).

(** The [DOMContentLoaded] listener, line 92. *)
Definition onDOMContentLoaded : Script unit :=
  e ← getElementById "title"; _ ← set_vars (assign_title e);
  e ← getElementById "message"; _ ← set_vars (assign_message e);
  e ← getElementById "data-url-input"; _ ← set_vars (assign_dataUrlInput e);
  e ← getElementById "save-file-type-selector";
  _ ← set_vars (assign_saveFileTypeSelector e);
  e ← getElementById "map"; _ ← set_vars (assign_map e);
  try_catch
    (api ← acquireVsCodeApi;
     _ ← set_vars (assign_vscode (object api));
     postMessage posted.refresh)
    (λ error, ret tt).

(** The [message] listener, line 109, on an event whose [data] is an
    object; [MapViewJsEvents.onMessageEvent] below is the listener on any
    event. *)
Definition onMessage (event_data : data.t) : Script unit :=
  if String.eqb (data.command event_data) "showMessage" then
    showMessage (data.message event_data)
  else if String.eqb (data.command event_data) "refresh" then
    try_catch
      (_ ← setState (data.uri event_data);
       _ ← set_vars (assign_mapConfig (object (data.config event_data)));
       v ← get_vars;
       _ ← set_innerText (title v) (data.fileName event_data);
       _ ← set_vars (assign_dataUrl (object (data.uri event_data)));
       _ ← set_vars (assign_dataFileName (object (data.fileName event_data)));
       v ← get_vars;
       view (mapConfig v))
      (λ error,
         _ ← console_error "map.view:" (error_message error);
         showMessage (error_message error))
  else ret tt.

(** A page as the browser hands it to the script: no variable assigned
    yet, nothing persisted, posted or logged. *)
Definition fresh_page (elements : gmap string string) (acquire : Acquire)
    : Page :=
  mkPage initial_vars (mkBrowser elements acquire None [] []).

End MapViewJs.

(** ** Sample inputs *)

Module Sample.

Definition worldUri : Uri := mkUri "file" "" "/data/world.geojson" "" "".

Definition worldDocument : TextDocument := mkTextDocument worldUri "{}".

(** The same file with other text in the editor. *)
Definition editedDocument : TextDocument :=
  mkTextDocument worldUri "{ }".

Definition notesDocument : TextDocument :=
  mkTextDocument (mkUri "file" "" "/data/notes.txt" "" "") "notes".

Definition window : Window :=
  mkWindow (Some (mkTextEditor worldDocument (Some ViewColumn.One))).

Definition noEditor : Window := mkWindow None.

(** No view is open. *)
Definition start : Reference.World :=
  Reference.empty {[ "/data/world.geojson" := "{}" ]}.

(** The [view.map] command ran once on [worldDocument]. *)
Definition opened : Reference.World :=
  final (run Reference.host
           (viewMapCallback "view.map" "/ext" None window ArgUndefined) start).

Definition typing : TextDocumentChangeEvent :=
  mkTextDocumentChangeEvent worldDocument [mkContentChange 1 0 " "].

Definition settings : ConfigurationChangeEvent :=
  mkConfigurationChangeEvent ["geo.data.viewer"].

Definition elements : gmap string string :=
  {[ "title" := ""; "message" := "Loading..."; "map" := "" ]}.

Definition refreshData : data.t :=
  data.mk "refresh" "" "/data/world.geojson" "world.geojson" "{}".

(** The page after [DOMContentLoaded], outside and inside the editor. *)
Definition loadedOutside : MapViewJs.Page :=
  (MapViewJs.onDOMContentLoaded
     (MapViewJs.fresh_page elements MapViewJs.NotDefined)).2.

Definition loadedInside : MapViewJs.Page :=
  (MapViewJs.onDOMContentLoaded
     (MapViewJs.fresh_page elements MapViewJs.Available)).2.

End Sample.

(** ** extension.ts: what a trace hands over *)

(** The disposables pushed to [context.subscriptions]. *)
Fixpoint subscriptions_of (t : list ActivateCall) : list Disposable :=
  match t with
  | SubscriptionsPush item :: t' => item :: subscriptions_of t'
  | _ :: t' => subscriptions_of t'
  | [] => []
  end.

(** The arguments of the [MapViewSerializer] constructor calls. *)
Fixpoint serializers_built (t : list ActivateCall)
    : list (string * string * option Template) :=
  match t with
  | NewMapViewSerializer viewType extensionPath viewTemplate :: t' =>
      (viewType, extensionPath, viewTemplate) :: serializers_built t'
  | _ :: t' => serializers_built t'
  | [] => []
  end.

(** The view types serializers were registered for. *)
Fixpoint serializer_types_of (t : list ActivateCall) : list string :=
  match t with
  | RegisterWebviewPanelSerializer viewType _ :: t' =>
      viewType :: serializer_types_of t'
  | _ :: t' => serializer_types_of t'
  | [] => []
  end.

(** The templates asked of the template manager, by name. *)
Fixpoint templates_asked (t : list ActivateCall) : list string :=
  match t with
  | GetTemplate _ name :: t' => name :: templates_asked t'
  | _ :: t' => templates_asked t'
  | [] => []
  end.

(** The view type, extension path, resource and template of the [MapView]
    constructor calls. *)
Fixpoint constructed_with (t : list HostCall)
    : list (string * string * Uri * option Template) :=
  match t with
  | NewMapView viewType extensionPath resource _ viewTemplate :: t' =>
      (viewType, extensionPath, resource, viewTemplate) :: constructed_with t'
  | _ :: t' => constructed_with t'
  | [] => []
  end.

(** The information messages shown. *)
Fixpoint messages_shown (t : list HostCall) : list string :=
  match t with
  | ShowInformationMessage message :: t' => message :: messages_shown t'
  | _ :: t' => messages_shown t'
  | [] => []
  end.

(** ** web/scripts/map.view.js: the functions behind the page's controls *)

Module MapViewJsControls.
Import MapViewJs.

(** A keyboard event, by the two numbers the script reads. *)
Record KeyEvent : Type := mkKeyEvent {
  keyCode : Z;
  which : Z
}.

(** The value of a property written from a variable of the script: the
    string it holds, or nothing while it holds none. *)
Definition property {A : Type} (r : Ref A) : option A :=
  match r with
  | object a => Some a
  | null | undefined => None
  end.

(** [e.keyCode || e.which]: the first number unless it is zero. *)
Definition key_of (event : KeyEvent) : Z :=
  if negb (keyCode event =? 0)%Z then keyCode event else which event.

(** What [document.getElementById(id)] gives on page [p]: the element, or
    [null] when the document has none of that id. *)
Definition found (p : Page) (id : string) : Ref Element :=
  if decide (is_Some (elements (browser p) !! id)) then object id else null.

(** [p] after [vscode.postMessage(m)] went through. *)
Definition with_posted (m : posted.t) (p : Page) : Page :=
  mkPage (vars p)
    (mkBrowser (elements (browser p)) (acquire (browser p)) (state (browser p))
       (outbox (browser p) ++ [m]) (console (browser p))).

(** [viewMapSource()], line 142. *)
Definition viewMapSource : Script unit :=
  v ← get_vars;
  postMessage (posted.mk "loadView" (Some "vscode.open") (property (dataUrl v))).

(** [loadMapViewFromUrl(e)], line 151.  [windowEvent] is [window.event],
    the fallback for a missing [e]; [values] holds the [value] of the input
    elements of the page by id.  [keyCode == '13'] compares numbers. *)
Definition loadMapViewFromUrl (windowEvent : Ref KeyEvent)
    (values : gmap string string) (e : Ref KeyEvent) : Script unit :=
  let e := match e with
           | object _ => e
           | null | undefined => windowEvent
           end in
  event ← member e "keyCode";
  if (key_of event =? 13)%Z then
    v ← get_vars;
    input ← member (dataUrlInput v) "value";
    let url := default "" (values !! input) in
    postMessage (posted.mk "loadView" (Some "map.view") (Some url))
  else ret tt.

(** [showHelp()], line 165. *)
Definition showHelp : Script unit :=
  postMessage
    (posted.mk "loadView" (Some "vscode.open")
       (Some "https://github.com/RandomFractals/geo-data-viewer#usage")).

(** [buyCoffee()], line 174. *)
Definition buyCoffee : Script unit :=
  postMessage
    (posted.mk "loadView" (Some "vscode.open")
       (Some "https://ko-fi.com/datapixy")).

End MapViewJsControls.

(** ** More sample inputs *)

Module Scenario.

Definition readmeDocument : TextDocument :=
  mkTextDocument (mkUri "file" "" "/maps.geojson/readme.txt" "" "") "".

Definition gitDocument : TextDocument :=
  mkTextDocument (mkUri "git" "" "/data/world.geojson" "" "") "{}".

Definition notesUri : Uri := mkUri "file" "" "/data/notes.txt" "" "".

Definition context : ExtensionContext := mkExtensionContext "/ext".

(** A host of the activation calls that finds no template. *)
Definition bareActivation : Host ActivateI :=
  mkHost ActivateI nat
    (λ c n,
       (match c return ActivateAnswer c with
        | AsAbsolutePath relativePath => "/ext/" +:+ relativePath
        | NewTemplateManager folder => mkTemplateManager folder
        | GetTemplate _ _ => None
        | NewMapViewSerializer viewType extensionPath viewTemplate =>
            mkMapViewSerializer viewType extensionPath viewTemplate
        | RegisterCommand _ _ => mkDisposable n
        | _ => tt
        end, S n)).

(** A page without a message element, loaded inside the editor. *)
Definition noMessageLine : MapViewJs.Page :=
  (MapViewJs.onDOMContentLoaded
     (MapViewJs.fresh_page {[ "title" := "" ]} MapViewJs.Available)).2.

(** A page without a title element, loaded inside the editor. *)
Definition noTitle : MapViewJs.Page :=
  (MapViewJs.onDOMContentLoaded
     (MapViewJs.fresh_page {[ "message" := "" ]} MapViewJs.Available)).2.

(** A page with the url input, loaded inside the editor. *)
Definition withInput : MapViewJs.Page :=
  (MapViewJs.onDOMContentLoaded
     (MapViewJs.fresh_page
        {[ "title" := ""; "message" := ""; "data-url-input" := "" ]}
        MapViewJs.Available)).2.

Definition typed : gmap string string :=
  {[ "data-url-input" := "https://example.org/world.geojson" ]}.

Definition enter : MapViewJsControls.KeyEvent :=
  MapViewJsControls.mkKeyEvent 13 13.

Definition letterA : MapViewJsControls.KeyEvent :=
  MapViewJsControls.mkKeyEvent 65 65.

Definition noteData : data.t := data.mk "showMessage" "Loading..." "" "" "".

Definition otherData : data.t := data.mk "configure" "" "" "" "".

End Scenario.

(** ** web/scripts/map.view.js: the listener on any event *)

Module MapViewJsEvents.
Import MapViewJs.

(** The [message] listener, line 109, on any event: [event.data] may be
    [null] or [undefined], and line 110 reads its [command] before any
    [try].  (On a number or a text the read gives [undefined] and the
    [switch] matches no case, as for an object with another command.) *)
Definition onMessageEvent (event_data : Ref data.t) : Script unit :=
  d ← member event_data "command";
  onMessage d.


End MapViewJsEvents.

(** ** What a delivered refresh message carries *)

(** A message delivered to a panel is a refresh message that contains the
    previewed file's path and its contents: it went to the panel of a view,
    its [uri] is the path of that view's resource and its [config] the
    contents of the file at that path. *)
Definition carries_file (files : gmap string string)
    (delivery : Webview * data.t) : Prop :=
  data.command delivery.2 = "refresh"
  ∧ ∃ view : MapView,
      delivery.1 = webview view
      ∧ data.uri delivery.2 = fsPath (resource view)
      ∧ data.config delivery.2 = default "" (files !! fsPath (resource view)).

(** * Properties *)

(** ** Strings *)

Lemma append_cons (c : ascii) (a b : string) :
  String c a +:+ b = String c (a +:+ b).
Proof. reflexivity. Qed.

Lemma substring_all (t : string) : substring 0 (String.length t) t = t.
Proof. induction t as [|c t IH]; simpl; [done | by rewrite IH]. Qed.

Lemma substring_skip_prefix (p t : string) :
  substring (String.length p) (String.length t) (p +:+ t) = t.
Proof. induction p as [|c p IH]; simpl; [apply substring_all | exact IH]. Qed.

Lemma length_append (p t : string) :
  String.length (p +:+ t) = (String.length p + String.length t)%nat.
Proof. induction p as [|c p IH]; simpl; [done | by rewrite IH]. Qed.

Lemma substring_split (s : string) (k : nat) :
  (k ≤ String.length s)%nat →
  s = substring 0 k s +:+ substring k (String.length s - k) s.
Proof.
  revert k. induction s as [|c s IH]; intros [|k] Hk; simpl in *; try lia.
  - done.
  - by rewrite substring_all.
  - rewrite append_cons. f_equal. apply IH. lia.
Qed.

(** [endsWith] holds exactly of the strings that are some prefix followed
    by the searched text. *)
Lemma endsWith_suffix (s search : string) :
  Js.endsWith s search = true ↔ ∃ stem, s = stem +:+ search.
Proof.
  unfold Js.endsWith. split.
  - destruct (Nat.leb_spec (String.length search) (String.length s)) as [Hle|];
      [|done].
    intros Heq%String.eqb_eq.
    pose proof (substring_split s (String.length s - String.length search))
      as Hs.
    replace (String.length s - (String.length s - String.length search))%nat
      with (String.length search) in Hs by lia.
    rewrite Heq in Hs. eexists. apply Hs. lia.
  - intros [stem ->]. rewrite length_append.
    destruct (Nat.leb_spec (String.length search)
                (String.length stem + String.length search)) as [_|]; [|lia].
    replace (String.length stem + String.length search - String.length search)%nat
      with (String.length stem) by lia.
    rewrite substring_skip_prefix. apply String.eqb_refl.
Qed.

(** [basename] of a path that ends in a file name is that name. *)
Lemma list_ascii_of_append (a b : string) :
  list_ascii_of_string (a +:+ b)
  = (list_ascii_of_string a ++ list_ascii_of_string b)%list.
Proof.
  induction a as [|c a IH]; [done|].
  rewrite append_cons. cbn. by rewrite IH.
Qed.

Lemma until_slash_app (name rest : list ascii) :
  Forall (λ c, Js.is_slash c = false) name →
  Js.until_slash (name ++ "/"%char :: rest)%list = name.
Proof.
  induction 1 as [|c name Hc _ IH]; cbn; [done|].
  by rewrite Hc, IH.
Qed.

Lemma drop_slashes_name (cs : list ascii) :
  match cs with
  | c :: _ => Js.is_slash c = false
  | [] => True
  end →
  Js.drop_slashes cs = cs.
Proof. destruct cs as [|c cs]; cbn; [done|]. by intros ->. Qed.

Lemma basename_of_file (dir name : string) :
  name ≠ "" →
  Forall (λ c, Js.is_slash c = false) (list_ascii_of_string name) →
  Js.basename (dir +:+ "/" +:+ name) = name.
Proof.
  intros Hname Hplain. unfold Js.basename.
  rewrite !list_ascii_of_append, !rev_app_distr. cbn [list_ascii_of_string rev app].
  rewrite <- !app_assoc. cbn [app].
  rewrite drop_slashes_name.
  - rewrite until_slash_app by by apply Forall_rev.
    by rewrite rev_involutive, string_of_list_ascii_of_string.
  - destruct name as [|c name]; [done|]. cbn [list_ascii_of_string] in *.
    apply Forall_rev in Hplain. cbn [rev] in *.
    destruct (rev (list_ascii_of_string name)) as [|c' cs]; cbn in *.
    + by inversion Hplain.
    + by inversion Hplain.
Qed.

(** ** Running programs *)

Section Run.
Context {I : Interface} (H : Host I).

Lemma run_bind {A B : Type} (p : Prog I A) (f : A → Prog I B) (w : world H) :
  run H (p ≫= f) w =
  let o1 := run H p w in
  let o2 := run H (f (result o1)) (final o1) in
  mkOutcome (result o2) (final o2) (trace o1 ++ trace o2).
Proof.
  revert w. induction p as [a|c k IH]; intros w.
  - cbn. by destruct (run H (f a) w).
  - change (Call c k ≫= f) with (Call c (λ x, k x ≫= f)). cbn.
    destruct (perform H c w) as [a w1]. by rewrite IH.
Qed.

Lemma run_call (c : op I) (w : world H) :
  run H (call c) w =
  mkOutcome (perform H c w).1 (perform H c w).2 [c].
Proof. cbn. by destruct (perform H c w). Qed.

Lemma run_ret {A : Type} (a : A) (w : world H) :
  run H (mret a) w = mkOutcome a w [].
Proof. done. Qed.

Lemma run_Call {R : Type} (c : op I) (k : answer I c → Prog I R)
    (w : world H) :
  run H (Call c k) w =
  let o := run H (k (perform H c w).1) (perform H c w).2 in
  mkOutcome (result o) (final o) (c :: trace o).
Proof. cbn. by destruct (perform H c w). Qed.

End Run.

(** One call of a straight-line program: name its answer and the state it
    leaves. *)
Ltac run_step H :=
  unfold call; rewrite (run_Call H); cbv beta zeta;
  match goal with
  | |- context [perform H ?c ?w] => destruct (perform H c w) as [? ?]
  end;
  cbn [fst snd result final trace].

Ltac run_program H :=
  cbn [mbind Prog_bind bind call]; repeat run_step H;
  cbn [run result final trace].

(** ** [isGeoDataFile] *)

Example isGeoDataFile_yes :
  isGeoDataFile (mkTextDocument (mkUri "file" "" "/data/world.geojson" "" "") "{}") = true.
Proof. reflexivity. Qed.

Example isGeoDataFile_no :
  isGeoDataFile (mkTextDocument (mkUri "file" "" "/data/world.json" "" "") "{}") = false.
Proof. reflexivity. Qed.

Example isGeoDataFile_dir :
  isGeoDataFile (mkTextDocument (mkUri "file" "" "/a.geojson/readme.txt" "" "") "") = false.
Proof. reflexivity. Qed.

Example isGeoDataFile_trailing_slash :
  isGeoDataFile (mkTextDocument (mkUri "file" "" "/maps/world.geojson/" "" "") "") = true.
Proof. reflexivity. Qed.

Lemma isGeoDataFile_suffix (document : TextDocument) :
  isGeoDataFile document = true ↔
  ∃ stem, Js.basename (fsPath (uri document)) = stem +:+ ".geojson".
Proof. apply endsWith_suffix. Qed.

Lemma isGeoDataFile_of_file (document : TextDocument) (dir stem : string) :
  fsPath (uri document) = dir +:+ "/" +:+ stem +:+ ".geojson" →
  Forall (λ c, Js.is_slash c = false) (list_ascii_of_string stem) →
  isGeoDataFile document = true.
Proof.
  intros Hpath Hstem. apply isGeoDataFile_suffix. exists stem.
  rewrite Hpath. apply basename_of_file.
  - by destruct stem.
  - rewrite list_ascii_of_append. apply Forall_app. split; [done|].
    by repeat constructor.
Qed.

(** C7.  Whether a document is a geo data file depends on its file-system
    path alone: two documents with the same [fsPath] get the same answer
    whatever their text, and the answer is [true] exactly when the basename
    of the path is some stem followed by [.geojson].  The save and change
    listeners read no document text: for two documents with the same URI,
    they are the same program on every host, whatever the texts and the
    content changes. *)
Theorem geo_data_file_by_path_alone (d1 d2 : TextDocument)
    (Hpath : fsPath (uri d1) = fsPath (uri d2)) :
  isGeoDataFile d1 = isGeoDataFile d2
  ∧ (isGeoDataFile d1 = true ↔
     ∃ stem, Js.basename (fsPath (uri d1)) = stem +:+ ".geojson")
  ∧ (uri d1 = uri d2 →
     onDidSaveTextDocument d1 = onDidSaveTextDocument d2
     ∧ ∀ (changes1 changes2 : list ContentChange) (H : Host HostI) (w : world H),
         run H (onDidChangeTextDocument (mkTextDocumentChangeEvent d1 changes1)) w
         = run H (onDidChangeTextDocument (mkTextDocumentChangeEvent d2 changes2)) w).
Proof.
  split_and!.
  - unfold isGeoDataFile. by rewrite Hpath.
  - apply isGeoDataFile_suffix.
  - intros Huri. split.
    + unfold onDidSaveTextDocument, isGeoDataFile. by rewrite Huri.
    + intros changes1 changes2 H w.
      unfold onDidChangeTextDocument, isGeoDataFile. cbn [document contentChanges].
      rewrite Huri. destruct (Js.endsWith _ _); [|done].
      cbn. destruct (perform H _ w) as [found w1].
      by destruct (bool_decide _ && _), (bool_decide _ && _).
Qed.

Lemma geo_data_file_by_path_alone_witness :
  text Sample.worldDocument ≠ text Sample.editedDocument
  ∧ isGeoDataFile Sample.worldDocument = isGeoDataFile Sample.editedDocument
  ∧ onDidSaveTextDocument Sample.worldDocument
    = onDidSaveTextDocument Sample.editedDocument.
Proof.
  destruct (geo_data_file_by_path_alone Sample.worldDocument
              Sample.editedDocument eq_refl) as (Hsame & _ & Hlisteners).
  split; [discriminate|]. split; [exact Hsame|].
  exact (proj1 (Hlisteners eq_refl)).
Defined.

(** ** The listeners *)

(** C1, as the code has it.  On the save of a geo data file the listener
    takes the document's URI with the scheme [map], asks the registry for
    the view filed under it, and calls [refresh] on that view when there is
    one; when there is none it makes no further call.  It never constructs
    a view and never adds one to the registry. *)
Theorem save_refreshes_the_view_found (H : Host HostI) (w : world H)
    (document : TextDocument) (Hgeo : isGeoDataFile document = true) :
  let mapUri := Uri_with_scheme (uri document) "map" in
  let found : option MapView := (perform H (ViewManagerFind mapUri) w).1 in
  let o := run H (onDidSaveTextDocument document) w in
  trace o = ViewManagerFind mapUri
            :: match found with
               | Some view => [MapViewRefresh view]
               | None => []
               end
  ∧ existsb is_construct (trace o) = false
  ∧ existsb is_add (trace o) = false.
Proof.
  unfold onDidSaveTextDocument. rewrite Hgeo. cbn.
  destruct (perform H (ViewManagerFind _) w) as [[view|] w1]; cbn.
  - by destruct (perform H (MapViewRefresh view) w1).
  - done.
Qed.

Lemma save_refreshes_the_view_found_witness :
  isGeoDataFile Sample.worldDocument = true
  ∧ existsb is_refresh
      (trace (run Reference.host (onDidSaveTextDocument Sample.worldDocument)
                Sample.opened)) = true.
Proof.
  split; [reflexivity|].
  rewrite (proj1 (save_refreshes_the_view_found Reference.host Sample.opened
                    Sample.worldDocument eq_refl)).
  vm_compute. reflexivity.
Defined.

(** C1, as the specification words it, fails when no view is open for the
    saved file: the file is a geo data file, and the listener neither
    refreshes nor creates a view, so no message reaches any panel. *)
Lemma save_without_view_reaches_no_panel :
  isGeoDataFile Sample.worldDocument = true
  ∧ let o := run Reference.host (onDidSaveTextDocument Sample.worldDocument)
               Sample.start in
    existsb is_refresh (trace o) = false
    ∧ existsb is_construct (trace o) = false
    ∧ Reference.inbox (final o) = []
    ∧ Reference.panels (final o) = 0.
Proof. vm_compute. repeat split. Qed.

Example save_of_other_file_calls_nothing :
  trace (run Reference.host (onDidSaveTextDocument Sample.notesDocument)
           Sample.opened) = [].
Proof. reflexivity. Qed.

Example save_after_open_posts_path_and_contents :
  Reference.inbox
    (final (run Reference.host (onDidSaveTextDocument Sample.worldDocument)
              Sample.opened))
  = [(mkWebview 0,
      data.mk "refresh" "" "/data/world.geojson" "world.geojson" "{}")].
Proof. vm_compute. reflexivity. Qed.

(** C3, as the code has it.  On a document change the listener makes at
    most one call, the lookup of the view for a geo data file; whatever the
    lookup answers and whatever the content changes are, it calls no
    [refresh], and the host is left as the lookup left it. *)
Theorem change_refreshes_nothing (H : Host HostI) (w : world H)
    (changeEvent : TextDocumentChangeEvent) :
  let mapUri := Uri_with_scheme (uri (document changeEvent)) "map" in
  let o := run H (onDidChangeTextDocument changeEvent) w in
  trace o = (if isGeoDataFile (document changeEvent)
             then [ViewManagerFind mapUri] else [])
  ∧ existsb is_refresh (trace o) = false
  ∧ final o = (if isGeoDataFile (document changeEvent)
               then (perform H (ViewManagerFind mapUri) w).2 else w).
Proof.
  unfold onDidChangeTextDocument.
  destruct (isGeoDataFile (document changeEvent)); [|done].
  cbn. destruct (perform H (ViewManagerFind _) w) as [found w1].
  by destruct (bool_decide _ && _).
Qed.

(** C3, as the specification words it, fails: the changed file is a geo
    data file, a view is registered for its URI and the list of content
    changes is not empty, and yet no refresh is called and no message is
    posted to the panel. *)
Lemma change_with_view_posts_nothing :
  isGeoDataFile (document Sample.typing) = true
  ∧ is_Some (Reference.find
               (Uri_with_scheme (uri (document Sample.typing)) "map")
               Sample.opened)
  ∧ List.length (contentChanges Sample.typing) = 1
  ∧ let o := run Reference.host (onDidChangeTextDocument Sample.typing)
               Sample.opened in
    existsb is_refresh (trace o) = false
    ∧ Reference.inbox (final o) = [].
Proof. vm_compute. repeat split. by eexists. Qed.

(** C4.  On every configuration change, whatever the event says, the
    listener calls the registry's [configure] once and makes no other call:
    it adds nothing to the registry, and the host is left exactly as that
    one [configure] leaves it. *)
Theorem configuration_change_configures_once (H : Host HostI) (w : world H)
    (e : ConfigurationChangeEvent) :
  let o := run H (onDidChangeConfiguration e) w in
  trace o = [ViewManagerConfigure]
  ∧ List.length (List.filter is_configure (trace o)) = 1
  ∧ existsb is_add (trace o) = false
  ∧ existsb is_construct (trace o) = false
  ∧ final o = (perform H ViewManagerConfigure w).2
  ∧ ∀ e' : ConfigurationChangeEvent,
      onDidChangeConfiguration e' = onDidChangeConfiguration e.
Proof.
  cbn. destruct (perform H ViewManagerConfigure w) as [[] w1]. by cbn.
Qed.

(** In the reference registry [configure] keeps every view in place. *)
Lemma configuration_change_keeps_views (w : Reference.World)
    (e : ConfigurationChangeEvent) :
  Reference.views (final (run Reference.host (onDidChangeConfiguration e) w))
  = Reference.views w.
Proof. done. Qed.

Example configuration_change_on_open_view :
  let o := run Reference.host (onDidChangeConfiguration Sample.settings)
             Sample.opened in
  Reference.configured (final o) = 1
  ∧ Reference.panels (final o) = Reference.panels Sample.opened.
Proof. vm_compute. by split. Qed.

(** ** The [view.map] command *)

Lemma getViewColumn_specified (window : Window) :
  getViewColumn window = specified_view_column window.
Proof.
  unfold getViewColumn, specified_view_column.
  destruct (activeTextEditor window) as [[d [c|]]|]; cbn; try done.
  destruct (Z.eqb_spec c 0) as [->|]; done.
Qed.

(** C2, as the code has it.  Invoked with an argument that is not a [Uri],
    the callback never asks the registry for an existing view.  While a
    text editor is active it takes the URI of the editor's document,
    constructs a new [MapView] for it, adds that view to the registry and
    returns its webview; while none is active it constructs nothing and
    makes no registry call. *)
Theorem view_map_constructs_without_lookup (H : Host HostI) (w : world H)
    (viewType extensionPath : string) (viewTemplate : option Template)
    (window : Window) (arg : CommandArg)
    (Harg : ∀ u, arg ≠ ArgUri u) :
  let o := run H (viewMapCallback viewType extensionPath viewTemplate window arg) w in
  existsb is_find (trace o) = false
  ∧ match activeTextEditor window with
    | Some editor =>
        let c := NewMapView viewType extensionPath (uri (editorDocument editor))
                   (getViewColumn window) viewTemplate in
        let mapView : MapView := (perform H c w).1 in
        trace o = [c; ViewManagerAdd mapView]
        ∧ result o = Some (webview mapView)
    | None =>
        existsb is_construct (trace o) = false
        ∧ existsb is_registry (trace o) = false
        ∧ result o = None
    end.
Proof.
  unfold viewMapCallback.
  destruct arg as [u| |s]; [by destruct (Harg u)| |];
    destruct (activeTextEditor window) as [editor|]; cbn;
    repeat match goal with
      | |- context [perform H ?c ?w] => destruct (perform H c w); cbn
      end; done.
Qed.

Lemma view_map_constructs_without_lookup_witness :
  let o := run Reference.host
             (viewMapCallback "view.map" "/ext" None Sample.window ArgUndefined)
             Sample.start in
  List.length (trace o) = 2 ∧ result o = Some (mkWebview 0).
Proof.
  destruct (view_map_constructs_without_lookup Reference.host Sample.start
              "view.map" "/ext" None Sample.window ArgUndefined
              ltac:(discriminate)) as (_ & Htrace & Hresult).
  cbv zeta. rewrite Htrace, Hresult. split; reflexivity.
Defined.

(** C2, as the specification words it, fails twice over.  With a view
    already registered for the active document the callback makes no
    lookup and constructs a second view and panel; and with no active
    editor it resolves no URI, constructs nothing and registers nothing. *)
Lemma view_map_with_view_open_constructs_another :
  is_Some (Reference.find (Uri_with_scheme Sample.worldUri "map") Sample.opened)
  ∧ Reference.panels Sample.opened = 1
  ∧ (let o := run Reference.host
                (viewMapCallback "view.map" "/ext" None Sample.window ArgUndefined)
                Sample.opened in
     existsb is_find (trace o) = false
     ∧ existsb is_construct (trace o) = true
     ∧ Reference.panels (final o) = 2)
  ∧ (let o := run Reference.host
                (viewMapCallback "view.map" "/ext" None Sample.noEditor ArgUndefined)
                Sample.start in
     existsb is_construct (trace o) = false
     ∧ existsb is_registry (trace o) = false).
Proof. vm_compute. repeat split. by eexists. Qed.

Example getViewColumn_beside_first :
  getViewColumn Sample.window = ViewColumn.Two.
Proof. reflexivity. Qed.

Example getViewColumn_no_editor :
  getViewColumn Sample.noEditor = ViewColumn.One.
Proof. reflexivity. Qed.

Example getViewColumn_no_column :
  getViewColumn (mkWindow (Some (mkTextEditor Sample.worldDocument None)))
  = ViewColumn.One.
Proof. reflexivity. Qed.

Example view_map_opens_beside_the_editor :
  column <$> Reference.find (Uri_with_scheme Sample.worldUri "map") Sample.opened
  = Some ViewColumn.Two.
Proof. vm_compute. reflexivity. Qed.

(** C8.  On every invocation of the command, the view column the view is
    constructed with is the active editor's column plus one when there is
    an active editor with a defined column, and [ViewColumn.One] otherwise;
    a view is constructed, once, unless the argument is not a [Uri] and no
    editor is active. *)
Theorem view_map_column (H : Host HostI) (w : world H)
    (viewType extensionPath : string) (viewTemplate : option Template)
    (window : Window) (arg : CommandArg) :
  let o := run H (viewMapCallback viewType extensionPath viewTemplate window arg) w in
  getViewColumn window = specified_view_column window
  ∧ constructed_columns (trace o)
    = match arg, activeTextEditor window with
      | ArgUri _, _ | _, Some _ => [specified_view_column window]
      | _, None => []
      end.
Proof.
  split; [apply getViewColumn_specified|].
  unfold viewMapCallback. rewrite getViewColumn_specified.
  destruct arg as [u| |s], (activeTextEditor window) as [editor|]; cbn;
    repeat match goal with
      | |- context [perform H ?c ?w] => destruct (perform H c w); cbn
      end; done.
Qed.

(** C9.  Invoked with an argument that is not a [Uri] while no text editor
    is active, the callback shows the information message
    [Open a geo data file to view map.] and returns [undefined]; this is
    its only call, so no [MapView] is constructed, nothing goes to the
    registry, and the host is left as showing the message leaves it. *)
Theorem view_map_without_editor (H : Host HostI) (w : world H)
    (viewType extensionPath : string) (viewTemplate : option Template)
    (window : Window) (arg : CommandArg)
    (Harg : ∀ u, arg ≠ ArgUri u)
    (Heditor : activeTextEditor window = None) :
  let notice := ShowInformationMessage "Open a geo data file to view map." in
  let o := run H (viewMapCallback viewType extensionPath viewTemplate window arg) w in
  result o = None
  ∧ trace o = [notice]
  ∧ existsb is_construct (trace o) = false
  ∧ existsb is_registry (trace o) = false
  ∧ final o = (perform H notice w).2.
Proof.
  unfold viewMapCallback. rewrite Heditor.
  destruct arg as [u| |s]; [by destruct (Harg u)| |]; cbn;
    by destruct (perform H (ShowInformationMessage _) w).
Qed.

Lemma view_map_without_editor_witness :
  let o := run Reference.host
             (viewMapCallback "view.map" "/ext" None Sample.noEditor
                (ArgString "world.geojson")) Sample.start in
  result o = None
  ∧ Reference.views (final o) = Reference.views Sample.start
  ∧ Reference.notices (final o) = ["Open a geo data file to view map."].
Proof.
  destruct (view_map_without_editor Reference.host Sample.start
              "view.map" "/ext" None Sample.noEditor (ArgString "world.geojson")
              ltac:(discriminate) eq_refl) as (Hresult & _ & _ & _ & Hfinal).
  cbv zeta. rewrite Hresult, Hfinal. repeat split.
Defined.

(** ** Activation *)

Lemma view_map_registry_calls (H : Host HostI) (w : world H)
    (viewType extensionPath : string) (viewTemplate : option Template)
    (window : Window) (arg : CommandArg) :
  let registry_calls :=
    List.filter is_registry
      (trace (run H (viewMapCallback viewType extensionPath viewTemplate
                       window arg) w)) in
  match arg, activeTextEditor window with
  | ArgUri _, _ | _, Some _ => ∃ view, registry_calls = [ViewManagerAdd view]
  | _, None => registry_calls = []
  end.
Proof.
  unfold viewMapCallback.
  destruct arg as [u| |s], (activeTextEditor window) as [editor|]; cbn;
    repeat match goal with
      | |- context [perform H ?c ?w] => destruct (perform H c w); cbn
      end; by eexists.
Qed.

Lemma save_registry_calls (H : Host HostI) (w : world H)
    (document : TextDocument) :
  List.filter is_registry (trace (run H (onDidSaveTextDocument document) w))
  = if isGeoDataFile document
    then [ViewManagerFind (Uri_with_scheme (uri document) "map")]
    else [].
Proof.
  unfold onDidSaveTextDocument. destruct (isGeoDataFile document); cbn;
    [|done].
  destruct (perform H (ViewManagerFind _) w) as [[view|] w1]; cbn;
    [by destruct (perform H (MapViewRefresh view) w1)|done].
Qed.

(** What [activate] does, call by call: the answers of the host decide the
    template folder, the manager, the template and the handles, and
    nothing else. *)
Lemma activate_trace (A : Host ActivateI) (a : world A)
    (context : ExtensionContext) :
  trace (run A (activate context) a) =
  let folder : string := (perform A (AsAbsolutePath "templates") a).1 in
  let a1 := (perform A (AsAbsolutePath "templates") a).2 in
  let manager : TemplateManager := (perform A (NewTemplateManager folder) a1).1 in
  let a2 := (perform A (NewTemplateManager folder) a1).2 in
  let viewTemplate : option Template :=
    (perform A (GetTemplate manager "map.view.html") a2).1 in
  let a3 := (perform A (GetTemplate manager "map.view.html") a2).2 in
  let newSerializer :=
    NewMapViewSerializer "map.view" (extensionPath context) viewTemplate in
  let serializer : MapViewSerializer := (perform A newSerializer a3).1 in
  let a4 := (perform A newSerializer a3).2 in
  let a5 :=
    (perform A (RegisterWebviewPanelSerializer "map.view" serializer) a4).2 in
  let register :=
    RegisterCommand "view.map"
      (viewMapCallback "view.map" (extensionPath context) viewTemplate) in
  let mapWebview : Disposable := (perform A register a5).1 in
  [ AsAbsolutePath "templates";
    NewTemplateManager folder;
    GetTemplate manager "map.view.html";
    newSerializer;
    RegisterWebviewPanelSerializer "map.view" serializer;
    register;
    SubscriptionsPush mapWebview;
    OnDidSaveTextDocument onDidSaveTextDocument;
    OnDidChangeTextDocument onDidChangeTextDocument;
    OnDidChangeConfiguration onDidChangeConfiguration;
    LoggerInfo "activate(): activated! extPath:" (extensionPath context) ].
Proof.
  unfold activate, createViewMapCommand, act. cbv zeta.
  run_program A. reflexivity.
Qed.

(** C6.  [activate] registers one command, [view.map], whose callback is
    the one [createViewMapCommand] builds, one document-save listener and
    one configuration-change listener (and one document-change listener).
    Each forwards to the view registry through one operation: the command
    callback calls [add], once, whenever it has a resource (a [Uri]
    argument or an active editor) and makes no other registry call; the
    save listener calls [find], once, for a geo data file and makes no
    other registry call; the configuration listener calls [configure],
    once, and nothing else. *)
Theorem activate_wires_the_registry (A : Host ActivateI) (a : world A)
    (context : ExtensionContext) :
  let t := trace (run A (activate context) a) in
  (∃ viewTemplate : option Template,
     commands_of t
     = [("view.map",
         viewMapCallback "view.map" (extensionPath context) viewTemplate)])
  ∧ save_listeners_of t = [onDidSaveTextDocument]
  ∧ change_listeners_of t = [onDidChangeTextDocument]
  ∧ configuration_listeners_of t = [onDidChangeConfiguration]
  ∧ (∀ (H : Host HostI) (w : world H) viewType extensionPath viewTemplate
       window arg,
       let registry_calls :=
         List.filter is_registry
           (trace (run H (viewMapCallback viewType extensionPath viewTemplate
                            window arg) w)) in
       match arg, activeTextEditor window with
       | ArgUri _, _ | _, Some _ =>
           ∃ view, registry_calls = [ViewManagerAdd view]
       | _, None => registry_calls = []
       end)
  ∧ (∀ (H : Host HostI) (w : world H) document,
       List.filter is_registry
         (trace (run H (onDidSaveTextDocument document) w))
       = if isGeoDataFile document
         then [ViewManagerFind (Uri_with_scheme (uri document) "map")]
         else [])
  ∧ (∀ (H : Host HostI) (w : world H) e,
       trace (run H (onDidChangeConfiguration e) w) = [ViewManagerConfigure]).
Proof.
  rewrite activate_trace. cbn [commands_of save_listeners_of change_listeners_of
    configuration_listeners_of].
  split_and!; try done.
  - by eexists.
  - apply view_map_registry_calls.
  - apply save_registry_calls.
  - intros H w e. cbn. by destruct (perform H ViewManagerConfigure w).
Qed.

(** ** The webview script *)

Section Webview.
Import MapViewJs.

Lemma getElementById_pure (id : string) (p : Page) :
  (getElementById id p).1
  = inr (if decide (is_Some (elements (browser p) !! id))
         then object id else null)
  ∧ (getElementById id p).2 = p.
Proof. done. Qed.

(** C10.  The page starts the handshake.  When the DOM has loaded and
    [acquireVsCodeApi] succeeds, the listener posts one message, the
    bare [{command: 'refresh'}], to the extension host and keeps the API
    object in [vscode]; when [acquireVsCodeApi] throws, as it does
    outside the editor where it is not defined, the listener posts
    nothing, leaves [vscode] alone, and the error does not leave it. *)
Theorem dom_loaded_posts_refresh_once (p : Page) :
  let r := onDOMContentLoaded p in
  r.1 = inr tt
  ∧ match acquire (browser p) with
    | Available =>
        outbox (browser r.2) = (outbox (browser p) ++ [posted.refresh])%list
        ∧ vscode (vars r.2) = object vsCodeApi
    | NotDefined | Acquired =>
        outbox (browser r.2) = outbox (browser p)
        ∧ vscode (vars r.2) = vscode (vars p)
        ∧ ∃ error, (acquireVsCodeApi p).1 = inl error
    end.
Proof.
  destruct p as [v [els acq st out con]].
  unfold onDOMContentLoaded, acquireVsCodeApi.
  destruct acq; cbn; repeat split; by eexists.
Qed.

Example dom_loaded_inside :
  outbox (browser Sample.loadedInside) = [posted.refresh]
  ∧ vscode (vars Sample.loadedInside) = object vsCodeApi
  ∧ title (vars Sample.loadedInside) = object "title"
  ∧ dataUrlInput (vars Sample.loadedInside) = null.
Proof. vm_compute. repeat split. Qed.

Example dom_loaded_outside :
  outbox (browser Sample.loadedOutside) = []
  ∧ vscode (vars Sample.loadedOutside) = undefined.
Proof. vm_compute. repeat split. Qed.

(** Whatever the handlers do to the reference host, the files stay as they
    are and every message in a panel's inbox carries a file, once the
    inbox started that way. *)
Lemma reference_inbox_carries_files {R : Type} (handlers : Prog HostI R)
    (w : Reference.World) :
  Forall (carries_file (Reference.files w)) (Reference.inbox w) →
  Reference.files (final (run Reference.host handlers w)) = Reference.files w
  ∧ Forall (carries_file (Reference.files w))
      (Reference.inbox (final (run Reference.host handlers w))).
Proof.
  revert w. induction handlers as [r|c k IH]; intros w Hw; [done|].
  rewrite (run_Call Reference.host). cbv zeta. cbn [final].
  assert (Reference.files (Reference.perform c w).2 = Reference.files w
          ∧ Forall (carries_file (Reference.files w))
              (Reference.inbox (Reference.perform c w).2)) as [Hfiles Hinbox].
  { destruct c as [text|viewType extensionPath u column viewTemplate
                   |added|u| |refreshed]; cbn; try done.
    split; [done|].
    apply Forall_app. split; [done|]. constructor; [|constructor].
    split; [done|]. by exists refreshed. }
  destruct (IH (Reference.perform c w).1 (Reference.perform c w).2)
    as [Hfiles' Hinbox']; [by rewrite Hfiles|].
  split; [by rewrite <- Hfiles | by rewrite <- Hfiles].
Qed.



Example refresh_reaches_the_panel_with_the_file :
  Forall (carries_file (Reference.files Sample.opened))
    (Reference.inbox
       (final (run Reference.host (onDidSaveTextDocument Sample.worldDocument)
                 Sample.opened))).
Proof.
  apply (reference_inbox_carries_files
           (onDidSaveTextDocument Sample.worldDocument) Sample.opened).
  constructor.
Qed.

End Webview.

(** * Further properties of the code *)

(** ** extension.ts *)

(** X1.  The file name decides: when the path ends in a file name after a
    separator, the document is a geo data file exactly when that name ends
    with [.geojson], whatever the directories before it are called. *)
Theorem isGeoDataFile_by_file_name (document : TextDocument)
    (dir name : string)
    (Hpath : fsPath (uri document) = dir +:+ "/" +:+ name)
    (Hname : name ≠ "")
    (Hplain : Forall (λ c, Js.is_slash c = false) (list_ascii_of_string name)) :
  isGeoDataFile document = Js.endsWith name ".geojson".
Proof.
  unfold isGeoDataFile. by rewrite Hpath, basename_of_file.
Qed.

Lemma isGeoDataFile_by_file_name_witness :
  isGeoDataFile Scenario.readmeDocument = false.
Proof.
  rewrite (isGeoDataFile_by_file_name Scenario.readmeDocument
             "/maps.geojson" "readme.txt" eq_refl ltac:(discriminate)
             ltac:(repeat constructor)).
  reflexivity.
Defined.

(** X2.  The listeners file views by everything but the scheme: two geo data
    files whose URIs differ in the scheme only are looked up under the same
    key, so their saves run identically on every host. *)
Theorem save_lookup_ignores_scheme (H : Host HostI) (w : world H)
    (d1 d2 : TextDocument)
    (Hauthority : authority (uri d1) = authority (uri d2))
    (Hpath : path (uri d1) = path (uri d2))
    (Hquery : query (uri d1) = query (uri d2))
    (Hfragment : fragment (uri d1) = fragment (uri d2))
    (Hgeo1 : isGeoDataFile d1 = true) (Hgeo2 : isGeoDataFile d2 = true) :
  Uri_with_scheme (uri d1) "map" = Uri_with_scheme (uri d2) "map"
  ∧ run H (onDidSaveTextDocument d1) w = run H (onDidSaveTextDocument d2) w.
Proof.
  assert (Uri_with_scheme (uri d1) "map" = Uri_with_scheme (uri d2) "map")
    as Hkey.
  { unfold Uri_with_scheme. by rewrite Hauthority, Hpath, Hquery, Hfragment. }
  split; [done|].
  unfold onDidSaveTextDocument. by rewrite Hgeo1, Hgeo2, Hkey.
Qed.

Lemma save_lookup_ignores_scheme_witness :
  scheme (uri Sample.worldDocument) ≠ scheme (uri Scenario.gitDocument)
  ∧ run Reference.host (onDidSaveTextDocument Sample.worldDocument)
      Sample.opened
    = run Reference.host (onDidSaveTextDocument Scenario.gitDocument)
        Sample.opened.
Proof.
  split; [discriminate|].
  exact (proj2 (save_lookup_ignores_scheme Reference.host Sample.opened
                  Sample.worldDocument Scenario.gitDocument
                  eq_refl eq_refl eq_refl eq_refl eq_refl eq_refl)).
Defined.

(** X3.  Invoked with a [Uri], the command previews that resource whatever the
    active editor shows and whatever kind of file it is: it constructs one
    view for the argument, adds it, returns its webview and shows no
    message; the window only decides the column. *)
Theorem view_map_with_uri_argument (H : Host HostI) (w : world H)
    (viewType extensionPath : string) (viewTemplate : option Template)
    (window : Window) (u : Uri) :
  let c := NewMapView viewType extensionPath u (getViewColumn window)
             viewTemplate in
  let mapView : MapView := (perform H c w).1 in
  let o := run H (viewMapCallback viewType extensionPath viewTemplate window
                    (ArgUri u)) w in
  trace o = [c; ViewManagerAdd mapView]
  ∧ result o = Some (webview mapView)
  ∧ messages_shown (trace o) = []
  ∧ ∀ window' : Window,
      getViewColumn window' = getViewColumn window →
      run H (viewMapCallback viewType extensionPath viewTemplate window'
               (ArgUri u)) w = o.
Proof.
  unfold viewMapCallback. cbn.
  destruct (perform H (NewMapView _ _ _ _ _) w) as [mapView w1] eqn:Hc. cbn.
  destruct (perform H (ViewManagerAdd mapView) w1) as [[] w2] eqn:Hadd. cbn.
  split_and!; try done.
  intros window' ->. by rewrite Hc, Hadd.
Qed.

Example view_map_previews_any_file :
  constructed_with
    (trace (run Reference.host
              (viewMapCallback "view.map" "/ext" None Sample.window
                 (ArgUri Scenario.notesUri)) Sample.start))
  = [("view.map", "/ext", Scenario.notesUri, None)].
Proof. reflexivity. Qed.

(** What the callback constructs: at most one view, for the [Uri] of the
    argument or else for the document of the active editor, with the view
    type, extension path and template the callback was built with. *)
Lemma view_map_constructed_with (H : Host HostI) (w : world H)
    (viewType extensionPath : string) (viewTemplate : option Template)
    (window : Window) (arg : CommandArg) :
  constructed_with
    (trace (run H (viewMapCallback viewType extensionPath viewTemplate
                     window arg) w))
  = match arg, activeTextEditor window with
    | ArgUri u, _ => [(viewType, extensionPath, u, viewTemplate)]
    | _, Some editor =>
        [(viewType, extensionPath, uri (editorDocument editor), viewTemplate)]
    | _, None => []
    end.
Proof.
  unfold viewMapCallback.
  destruct arg as [u| |s], (activeTextEditor window) as [editor|]; cbn;
    repeat match goal with
      | |- context [perform H ?c ?w] => destruct (perform H c w); cbn
      end; done.
Qed.

(** X4.  Of all it registers, [activate] pushes one disposable to
    [context.subscriptions]: the one [registerCommand] returned for
    [view.map].  What the three listener registrations and the serializer
    registration return is dropped. *)
Theorem activate_subscribes_the_command_only (A : Host ActivateI)
    (a : world A) (context : ExtensionContext) :
  let t := trace (run A (activate context) a) in
  ∃ (viewTemplate : option Template) (before : world A),
    subscriptions_of t
    = [(perform A
          (RegisterCommand "view.map"
             (viewMapCallback "view.map" (extensionPath context) viewTemplate))
          before).1]
    ∧ (List.length (save_listeners_of t)
       + List.length (change_listeners_of t)
       + List.length (configuration_listeners_of t)
       + List.length (serializer_types_of t))%nat = 4.
Proof.
  cbv zeta. rewrite activate_trace. cbv zeta.
  cbn [subscriptions_of save_listeners_of change_listeners_of
       configuration_listeners_of serializer_types_of List.length].
  by do 2 eexists.
Qed.

(** X5.  [activate] asks for one template, [map.view.html], and hands whatever
    the template manager answers, a template or [undefined], unchecked to
    both the serializer for the view type [map.view] and the callback of
    the command [view.map], together with the extension path of the
    context. *)
Theorem activate_shares_the_template (A : Host ActivateI) (a : world A)
    (context : ExtensionContext) :
  let t := trace (run A (activate context) a) in
  templates_asked t = ["map.view.html"]
  ∧ serializer_types_of t = ["map.view"]
  ∧ ∃ (manager : TemplateManager) (before : world A),
      let viewTemplate : option Template :=
        (perform A (GetTemplate manager "map.view.html") before).1 in
      serializers_built t
      = [("map.view", extensionPath context, viewTemplate)]
      ∧ commands_of t
        = [("view.map",
            viewMapCallback "view.map" (extensionPath context) viewTemplate)].
Proof.
  cbv zeta. rewrite activate_trace. cbv zeta.
  cbn [templates_asked serializer_types_of serializers_built commands_of].
  split_and!; try done. by do 2 eexists.
Qed.

Example activate_without_template :
  let t := trace (run Scenario.bareActivation (activate Scenario.context) 0) in
  serializers_built t = [("map.view", "/ext", None)]
  ∧ snd <$> commands_of t = [viewMapCallback "view.map" "/ext" None]
  ∧ subscriptions_of t = [mkDisposable 5].
Proof. vm_compute. repeat split. Qed.

(** X6.  Every view the registered command constructs carries the view
    type [view.map], the extension path of the context and the template
    loaded at activation, that is the answer the template manager gave to
    [getTemplate('map.view.html')] in the state activation had reached;
    there is one view per invocation, for the [Uri] argument or else the
    active editor's document, and none without either. *)
Theorem registered_command_constructs (A : Host ActivateI) (a : world A)
    (context : ExtensionContext) :
  let folder : string := (perform A (AsAbsolutePath "templates") a).1 in
  let a1 := (perform A (AsAbsolutePath "templates") a).2 in
  let manager : TemplateManager := (perform A (NewTemplateManager folder) a1).1 in
  let a2 := (perform A (NewTemplateManager folder) a1).2 in
  let viewTemplate : option Template :=
    (perform A (GetTemplate manager "map.view.html") a2).1 in
  ∀ (name : string) (callback : CommandCallback),
    In (name, callback) (commands_of (trace (run A (activate context) a))) →
    ∀ (H : Host HostI) (w : world H) (window : Window) (arg : CommandArg),
      constructed_with (trace (run H (callback window arg) w))
      = match arg, activeTextEditor window with
        | ArgUri u, _ =>
            [("view.map", extensionPath context, u, viewTemplate)]
        | _, Some editor =>
            [("view.map", extensionPath context,
              uri (editorDocument editor), viewTemplate)]
        | _, None => []
        end.
Proof.
  rewrite activate_trace. cbv zeta. cbn [commands_of].
  intros name callback [Hin|[]] H w window arg.
  injection Hin as <- <-. apply view_map_constructed_with.
Qed.

Lemma registered_command_constructs_witness :
  constructed_with
    (trace (run Reference.host
              (viewMapCallback "view.map" "/ext" None Sample.window
                 ArgUndefined) Sample.start))
  = [("view.map", "/ext", Sample.worldUri, None)].
Proof.
  exact (registered_command_constructs Scenario.bareActivation 0
           Scenario.context "view.map" (viewMapCallback "view.map" "/ext" None)
           ltac:(vm_compute; left; reflexivity)
           Reference.host Sample.start Sample.window ArgUndefined).
Defined.

(** ** web/scripts/map.view.js *)

Section WebviewListeners.
Import MapViewJs.

(** X7.  A message whose command is neither [showMessage] nor [refresh] falls
    through the [switch]: nothing is thrown and the page is untouched. *)
Theorem other_commands_change_nothing (p : Page) (d : data.t)
    (Hshow : data.command d ≠ "showMessage")
    (Hrefresh : data.command d ≠ "refresh") :
  onMessage d p = (inr tt, p).
Proof.
  unfold onMessage.
  apply String.eqb_neq in Hshow, Hrefresh. by rewrite Hshow, Hrefresh.
Qed.

Lemma other_commands_change_nothing_witness :
  onMessage Scenario.otherData Sample.loadedInside
  = (inr tt, Sample.loadedInside).
Proof.
  exact (other_commands_change_nothing Sample.loadedInside Scenario.otherData
           ltac:(discriminate) ltac:(discriminate)).
Defined.

(** X8.  On a page whose message element was found the [message]
    listener throws only on an event without data.  On every message whose
    data is an object it returns normally, whatever the command and
    whatever else is missing: a failing refresh is caught and shown.  On
    [null] or [undefined] data the read of [event.data.command], which no
    [try] guards, throws a [TypeError] out of the listener and the page is
    untouched. *)
Theorem message_listener_throws_only_without_data (p : Page)
    (event_data : Ref data.t) (messageElement : Element)
    (Hmessage : message (vars p) = object messageElement) :
  let r := MapViewJsEvents.onMessageEvent event_data p in
  match event_data with
  | object d => r = onMessage d p ∧ r.1 = inr tt
  | null | undefined => (∃ text, r.1 = inl (TypeError text)) ∧ r.2 = p
  end.
Proof.
  destruct event_data as [| |d]; [by split; [eexists|]..|].
  split; [done|]. change ((onMessage d p).1 = inr tt).
  destruct p as [[vs ti me ma mc sf di du df] [els acq st out con]].
  cbn in Hmessage. subst me. unfold onMessage.
  destruct (String.eqb _ "showMessage"); [done|].
  destruct (String.eqb _ "refresh"); [|done].
  by destruct vs, ti.
Qed.

Lemma message_listener_throws_only_without_data_witness :
  (MapViewJsEvents.onMessageEvent (object Sample.refreshData)
     Scenario.noTitle).1 = inr tt
  ∧ ∃ text,
      (MapViewJsEvents.onMessageEvent null Sample.loadedInside).1
      = inl (TypeError text).
Proof.
  split.
  - exact (proj2 (message_listener_throws_only_without_data Scenario.noTitle
                    (object Sample.refreshData) "message" eq_refl)).
  - exact (proj1 (message_listener_throws_only_without_data Sample.loadedInside
                    null "message" eq_refl)).
Defined.

(** X9.  On a page without a message element every refresh ends in an uncaught
    [TypeError], even when the refresh itself went through: [view] and the
    [catch] block both write to the missing element.  The error is logged
    once on the way. *)
Theorem refresh_without_message_line_throws (p : Page) (d : data.t)
    (Hcommand : data.command d = "refresh")
    (Hmessage : ∀ element, message (vars p) ≠ object element) :
  let r := onMessage d p in
  (∃ text, r.1 = inl (TypeError text))
  ∧ List.length (console (browser r.2)) = S (List.length (console (browser p)))
  ∧ (∀ api titleElement,
       vscode (vars p) = object api → title (vars p) = object titleElement →
       state (browser r.2) = Some (data.uri d)
       ∧ dataUrl (vars r.2) = object (data.uri d)).
Proof.
  destruct p as [[vs ti me ma mc sf di du df] [els acq st out con]].
  cbn in Hmessage. unfold onMessage. rewrite Hcommand.
  destruct me as [| |element]; [| |by destruct (Hmessage element)];
    destruct vs, ti;
    (split_and!;
     [by eexists
     |apply last_length
     |intros ? ? ? ?; by simplify_eq]).
Qed.

Lemma refresh_without_message_line_throws_witness :
  let r := onMessage Sample.refreshData Scenario.noMessageLine in
  (∃ text, r.1 = inl (TypeError text))
  ∧ state (browser r.2) = Some "/data/world.geojson".
Proof.
  destruct (refresh_without_message_line_throws Scenario.noMessageLine
              Sample.refreshData eq_refl ltac:(discriminate))
    as (Hthrown & _ & Hstate).
  split; [exact Hthrown|].
  exact (proj1 (Hstate vsCodeApi "title" eq_refl eq_refl)).
Defined.

(** X10.  A refresh is not all or nothing.  When the API object is there but the
    title element is missing, the [uri] is already persisted and the config
    kept when the assignment to the title throws; the data url and file
    name keep their old values, [view] is not run, and the error is logged
    and shown in the message element. *)
Theorem refresh_without_title_is_partial (p : Page) (d : data.t)
    (api : VsCodeApi) (messageElement : Element)
    (Hcommand : data.command d = "refresh")
    (Hvscode : vscode (vars p) = object api)
    (Htitle : ∀ element, title (vars p) ≠ object element)
    (Hmessage : message (vars p) = object messageElement) :
  let r := onMessage d p in
  r.1 = inr tt
  ∧ state (browser r.2) = Some (data.uri d)
  ∧ mapConfig (vars r.2) = object (data.config d)
  ∧ dataUrl (vars r.2) = dataUrl (vars p)
  ∧ dataFileName (vars r.2) = dataFileName (vars p)
  ∧ ∃ text,
      elements (browser r.2)
      = <[messageElement := text]> (elements (browser p))
      ∧ console (browser r.2)
        = (console (browser p) ++ ["map.view: " +:+ text])%list.
Proof.
  destruct p as [[vs ti me ma mc sf di du df] [els acq st out con]].
  cbn in Hvscode, Htitle, Hmessage. subst vs me.
  unfold onMessage. rewrite Hcommand.
  destruct ti as [| |element]; [| |by destruct (Htitle element)];
    (split_and!; try done; by eexists).
Qed.

Lemma refresh_without_title_is_partial_witness :
  let r := onMessage Sample.refreshData Scenario.noTitle in
  state (browser r.2) = Some "/data/world.geojson"
  ∧ dataUrl (vars r.2) = undefined.
Proof.
  destruct (refresh_without_title_is_partial Scenario.noTitle
              Sample.refreshData vsCodeApi "message" eq_refl eq_refl
              ltac:(discriminate) eq_refl)
    as (_ & Hstate & _ & Hurl & _).
  split; [exact Hstate | exact Hurl].
Defined.

(** X11.  The [message] listener only receives: whatever the message and the
    page, it posts nothing to the extension host, does not touch
    [acquireVsCodeApi], and leaves [vscode] and the five element variables
    as they were. *)
Theorem message_listener_only_receives (p : Page) (d : data.t) :
  let p' := (onMessage d p).2 in
  outbox (browser p') = outbox (browser p)
  ∧ acquire (browser p') = acquire (browser p)
  ∧ vscode (vars p') = vscode (vars p)
  ∧ title (vars p') = title (vars p)
  ∧ message (vars p') = message (vars p)
  ∧ mapElement (vars p') = mapElement (vars p)
  ∧ dataUrlInput (vars p') = dataUrlInput (vars p)
  ∧ saveFileTypeSelector (vars p') = saveFileTypeSelector (vars p).
Proof.
  destruct p as [[vs ti me ma mc sf di du df] [els acq st out con]].
  unfold onMessage.
  destruct (String.eqb _ "showMessage"); [by destruct me|].
  destruct (String.eqb _ "refresh"); [|done].
  by destruct vs, ti, me.
Qed.

(** X12.  A [showMessage] message writes its text to the message element and
    changes nothing else; on a page without that element the page is
    untouched and the [TypeError] leaves the listener, for this case has
    no [try]. *)
Theorem show_message_command (p : Page) (d : data.t)
    (Hcommand : data.command d = "showMessage") :
  match message (vars p) with
  | object element =>
      onMessage d p
      = (inr tt,
         mkPage (vars p)
           (mkBrowser (<[element := data.message d]> (elements (browser p)))
              (acquire (browser p)) (state (browser p)) (outbox (browser p))
              (console (browser p))))
  | null | undefined =>
      (∃ text, (onMessage d p).1 = inl (TypeError text))
      ∧ (onMessage d p).2 = p
  end.
Proof.
  destruct p as [[vs ti me ma mc sf di du df] [els acq st out con]].
  unfold onMessage. rewrite Hcommand.
  destruct me; cbn; try done; by split; [eexists|].
Qed.

Lemma show_message_command_witness :
  elements (browser (onMessage Scenario.noteData Sample.loadedInside).2)
    !! "message" = Some "Loading..."
  ∧ ∃ text,
      (onMessage Scenario.noteData Scenario.noMessageLine).1
      = inl (TypeError text).
Proof.
  split.
  - pose proof (show_message_command Sample.loadedInside Scenario.noteData
                  eq_refl) as Hshow.
    change (message (vars Sample.loadedInside)) with (object (A := Element) "message")
      in Hshow.
    cbv beta iota in Hshow. rewrite Hshow. vm_compute. reflexivity.
  - pose proof (show_message_command Scenario.noMessageLine Scenario.noteData
                  eq_refl) as Hshow.
    change (message (vars Scenario.noMessageLine)) with (null (A := Element))
      in Hshow.
    exact (proj1 Hshow).
Defined.

(** X20.  Without the API object a refresh records nothing.  On a page
    whose [vscode] variable holds no object, as after loading outside the
    editor, and whose message element was found, [vscode.setState] throws
    first: the state and every variable stay as they were and nothing is
    posted; the error is caught, logged once and shown in the message
    element. *)
Theorem refresh_without_api_records_nothing (p : Page) (d : data.t)
    (messageElement : Element)
    (Hcommand : data.command d = "refresh")
    (Hvscode : ∀ api, vscode (vars p) ≠ object api)
    (Hmessage : message (vars p) = object messageElement) :
  let r := onMessage d p in
  r.1 = inr tt
  ∧ state (browser r.2) = state (browser p)
  ∧ vars r.2 = vars p
  ∧ outbox (browser r.2) = outbox (browser p)
  ∧ ∃ text,
      elements (browser r.2)
      = <[messageElement := text]> (elements (browser p))
      ∧ console (browser r.2)
        = (console (browser p) ++ ["map.view: " +:+ text])%list.
Proof.
  destruct p as [[vs ti me ma mc sf di du df] [els acq st out con]].
  cbn in Hvscode, Hmessage. subst me.
  unfold onMessage. rewrite Hcommand.
  destruct vs as [| |api]; [| |by destruct (Hvscode api)];
    (split_and!; try done; by eexists).
Qed.

Lemma refresh_without_api_records_nothing_witness :
  let r := onMessage Sample.refreshData Sample.loadedOutside in
  state (browser r.2) = None
  ∧ vars r.2 = vars Sample.loadedOutside
  ∧ elements (browser r.2) !! "title" = Some "".
Proof.
  destruct (refresh_without_api_records_nothing Sample.loadedOutside
              Sample.refreshData "message" eq_refl ltac:(discriminate) eq_refl)
    as (_ & Hstate & Hvars & _ & text & Helements & _).
  cbv zeta. rewrite Hstate, Hvars, Helements. by vm_compute.
Defined.

End WebviewListeners.

Section WebviewLoading.
Import MapViewJs MapViewJsControls.

(** X13.  After [DOMContentLoaded] each of the five element variables holds the
    element of its id when the document has one and [null] when it has
    none, never [undefined]; the texts of the document, the persisted
    state, the console and the three data variables are as before. *)
Theorem dom_loaded_binds_elements (p : Page) :
  let p' := (onDOMContentLoaded p).2 in
  title (vars p') = found p "title"
  ∧ message (vars p') = found p "message"
  ∧ dataUrlInput (vars p') = found p "data-url-input"
  ∧ saveFileTypeSelector (vars p') = found p "save-file-type-selector"
  ∧ mapElement (vars p') = found p "map"
  ∧ elements (browser p') = elements (browser p)
  ∧ state (browser p') = state (browser p)
  ∧ console (browser p') = console (browser p)
  ∧ mapConfig (vars p') = mapConfig (vars p)
  ∧ dataUrl (vars p') = dataUrl (vars p)
  ∧ dataFileName (vars p') = dataFileName (vars p).
Proof.
  destruct p as [v [els acq st out con]].
  unfold found. by destruct acq.
Qed.

(** X14.  Loading and refreshing compose.  On a page inside the editor whose
    document has a title and a message element, once [DOMContentLoaded] has
    run every refresh message is recorded in full: the [uri] is persisted
    and kept, the title shows the file name, the message line is cleared,
    nothing is logged, and the host has received the one handshake message
    and nothing more. *)
Theorem refresh_after_loading (p : Page) (d : data.t)
    (Hcommand : data.command d = "refresh")
    (Hacquire : acquire (browser p) = Available)
    (Htitle : is_Some (elements (browser p) !! "title"))
    (Hmessage : is_Some (elements (browser p) !! "message")) :
  let r := onMessage d (onDOMContentLoaded p).2 in
  r.1 = inr tt
  ∧ state (browser r.2) = Some (data.uri d)
  ∧ dataUrl (vars r.2) = object (data.uri d)
  ∧ dataFileName (vars r.2) = object (data.fileName d)
  ∧ mapConfig (vars r.2) = object (data.config d)
  ∧ elements (browser r.2)
    = <["message" := ""]> (<["title" := data.fileName d]> (elements (browser p)))
  ∧ console (browser r.2) = console (browser p)
  ∧ outbox (browser r.2) = (outbox (browser p) ++ [posted.refresh])%list.
Proof.
  destruct p as [v [els acq st out con]]. cbn in Hacquire, Htitle, Hmessage.
  subst acq.
  assert ((onDOMContentLoaded (mkPage v (mkBrowser els Available st out con))).2
          = mkPage (mkVars (object vsCodeApi)
                      (found (mkPage v (mkBrowser els Available st out con))
                         "title")
                      (found (mkPage v (mkBrowser els Available st out con))
                         "message")
                      (found (mkPage v (mkBrowser els Available st out con))
                         "map")
                      (mapConfig v)
                      (found (mkPage v (mkBrowser els Available st out con))
                         "save-file-type-selector")
                      (found (mkPage v (mkBrowser els Available st out con))
                         "data-url-input")
                      (dataUrl v) (dataFileName v))
              (mkBrowser els Acquired st (out ++ [posted.refresh]) con))
    as -> by reflexivity.
  unfold found. cbn [browser elements].
  rewrite (decide_True (P := is_Some (els !! "title"))) by done.
  rewrite (decide_True (P := is_Some (els !! "message"))) by done.
  unfold onMessage. rewrite Hcommand. by split_and!.
Qed.

Lemma refresh_after_loading_witness :
  let r := onMessage Sample.refreshData
             (onDOMContentLoaded
                (fresh_page Sample.elements Available)).2 in
  state (browser r.2) = Some "/data/world.geojson"
  ∧ outbox (browser r.2) = [posted.refresh].
Proof.
  destruct (refresh_after_loading (fresh_page Sample.elements Available)
              Sample.refreshData eq_refl eq_refl
              ltac:(vm_compute; by eexists) ltac:(vm_compute; by eexists))
    as (_ & Hstate & _ & _ & _ & _ & _ & Hout).
  split; [exact Hstate | exact Hout].
Defined.

End WebviewLoading.

Section WebviewControls.
Import MapViewJs MapViewJsControls.

(** X15.  A key other than Enter loads nothing: [loadMapViewFromUrl] returns
    without reading the input or touching [vscode], so it neither posts
    nor throws, inside the editor or outside. *)
Theorem other_keys_load_nothing (windowEvent : Ref KeyEvent)
    (values : gmap string string) (event : KeyEvent) (p : Page)
    (Hkey : key_of event ≠ 13%Z) :
  loadMapViewFromUrl windowEvent values (object event) p = (inr tt, p).
Proof.
  unfold loadMapViewFromUrl. apply Z.eqb_neq in Hkey.
  cbv [mbind Script_bind bind member ret]. by rewrite Hkey.
Qed.

Lemma other_keys_load_nothing_witness :
  loadMapViewFromUrl undefined Scenario.typed (object Scenario.letterA)
    Sample.loadedOutside
  = (inr tt, Sample.loadedOutside).
Proof.
  exact (other_keys_load_nothing undefined Scenario.typed Scenario.letterA
           Sample.loadedOutside ltac:(discriminate)).
Defined.

(** X16.  Enter posts one [loadView] message for [map.view] with the value of
    the url input and changes nothing else, when the input element was
    found and the API object acquired; when either is missing a
    [TypeError] leaves the function, nothing is posted and the page is
    untouched. *)
Theorem enter_loads_the_typed_url (windowEvent : Ref KeyEvent)
    (values : gmap string string) (event : KeyEvent) (p : Page)
    (Hkey : key_of event = 13%Z) :
  let r := loadMapViewFromUrl windowEvent values (object event) p in
  match dataUrlInput (vars p), vscode (vars p) with
  | object input, object _ =>
      r = (inr tt,
           with_posted
             (posted.mk "loadView" (Some "map.view")
                (Some (default "" (values !! input)))) p)
  | _, _ => (∃ text, r.1 = inl (TypeError text)) ∧ r.2 = p
  end.
Proof.
  destruct p as [[vs ti me ma mc sf di du df] [els acq st out con]].
  unfold loadMapViewFromUrl. apply Z.eqb_eq in Hkey.
  cbv [mbind Script_bind bind member ret]. rewrite Hkey.
  destruct di, vs; cbn; try done; by split; [eexists|].
Qed.

Lemma enter_loads_the_typed_url_witness :
  outbox (browser (loadMapViewFromUrl undefined Scenario.typed
                     (object Scenario.enter) Scenario.withInput).2)
  = [posted.refresh;
     posted.mk "loadView" (Some "map.view")
       (Some "https://example.org/world.geojson")].
Proof.
  pose proof (enter_loads_the_typed_url undefined Scenario.typed Scenario.enter
                Scenario.withInput eq_refl) as Henter.
  cbv zeta in Henter.
  change (dataUrlInput (vars Scenario.withInput))
    with (object (A := Element) "data-url-input") in Henter.
  change (vscode (vars Scenario.withInput)) with (object vsCodeApi) in Henter.
  cbv beta iota in Henter. rewrite Henter. vm_compute. reflexivity.
Defined.

(** X17.  Without an event argument [loadMapViewFromUrl] works on
    [window.event]; with neither it throws a [TypeError] before anything
    else and leaves the page untouched.  A zero [keyCode] gives way to
    [which]. *)
Theorem load_falls_back_to_window_event (windowEvent : Ref KeyEvent)
    (values : gmap string string) (p : Page) :
  loadMapViewFromUrl windowEvent values undefined p
  = loadMapViewFromUrl windowEvent values windowEvent p
  ∧ loadMapViewFromUrl windowEvent values null p
    = loadMapViewFromUrl windowEvent values windowEvent p
  ∧ (∃ text, (loadMapViewFromUrl undefined values undefined p).1
             = inl (TypeError text))
  ∧ (loadMapViewFromUrl undefined values undefined p).2 = p
  ∧ ∀ which : Z, key_of (mkKeyEvent 0 which) = which.
Proof.
  split_and!; try by destruct windowEvent.
  by eexists.
Qed.

(** X18.  The three buttons.  With the API object acquired [viewMapSource],
    [showHelp] and [buyCoffee] each post exactly one [loadView] message for
    [vscode.open] and change nothing else; [viewMapSource] sends the data
    url kept by the last refresh, and no [uri] before the first one.
    Without the API object each throws a [TypeError] that nothing catches
    and leaves the page untouched. *)
Theorem buttons_post_or_throw (p : Page) :
  let open (uri : option string) :=
    posted.mk "loadView" (Some "vscode.open") uri in
  match vscode (vars p) with
  | object _ =>
      viewMapSource p
      = (inr tt, with_posted (open (property (dataUrl (vars p)))) p)
      ∧ showHelp p
        = (inr tt,
           with_posted
             (open (Some "https://github.com/RandomFractals/geo-data-viewer#usage"))
             p)
      ∧ buyCoffee p
        = (inr tt, with_posted (open (Some "https://ko-fi.com/datapixy")) p)
  | null | undefined =>
      ∀ button, In button [viewMapSource; showHelp; buyCoffee] →
        (∃ text, (button p).1 = inl (TypeError text)) ∧ (button p).2 = p
  end.
Proof.
  destruct p as [[vs ti me ma mc sf di du df] [els acq st out con]].
  destruct vs; cbn [vars vscode]; try done;
    intros button [<-|[<-|[<-|[]]]]; by split; [eexists|].
Qed.

(** X19.  Refresh and view source round-trip: after a refresh was recorded,
    [viewMapSource] asks the host to open exactly the [uri] of that
    message. *)
Theorem view_source_opens_the_refreshed_uri (p : Page) (d : data.t)
    (api : VsCodeApi) (titleElement messageElement : Element)
    (Hcommand : data.command d = "refresh")
    (Hvscode : vscode (vars p) = object api)
    (Htitle : title (vars p) = object titleElement)
    (Hmessage : message (vars p) = object messageElement) :
  let r := viewMapSource (onMessage d p).2 in
  r.1 = inr tt
  ∧ outbox (browser r.2)
    = (outbox (browser p)
       ++ [posted.mk "loadView" (Some "vscode.open") (Some (data.uri d))])%list.
Proof.
  destruct p as [[vs ti me ma mc sf di du df] [els acq st out con]].
  cbn in Hvscode, Htitle, Hmessage. subst vs ti me.
  unfold onMessage. by rewrite Hcommand.
Qed.

Lemma view_source_opens_the_refreshed_uri_witness :
  outbox (browser (viewMapSource
                     (onMessage Sample.refreshData Sample.loadedInside).2).2)
  = [posted.refresh;
     posted.mk "loadView" (Some "vscode.open") (Some "/data/world.geojson")].
Proof.
  exact (proj2 (view_source_opens_the_refreshed_uri Sample.loadedInside
                  Sample.refreshData vsCodeApi "title" "message"
                  eq_refl eq_refl eq_refl eq_refl)).
Defined.

End WebviewControls.

Example buttons_outside_the_editor :
  (∃ text, (MapViewJsControls.showHelp Sample.loadedOutside).1
           = inl (MapViewJs.TypeError text))
  ∧ (MapViewJsControls.showHelp Sample.loadedOutside).2 = Sample.loadedOutside.
Proof. vm_compute. split; [by eexists | done]. Qed.

Example view_source_before_any_refresh :
  MapViewJs.outbox
    (MapViewJs.browser (MapViewJsControls.viewMapSource Sample.loadedInside).2)
  = [posted.refresh; posted.mk "loadView" (Some "vscode.open") None].
Proof. vm_compute. reflexivity. Qed.
